(** * Dummy.js: the PZEM telemetry generator, embedded and verified

    The script [src/Dummy.js] asks for an energy type, builds one telemetry
    record per day for the last two months, connects to MongoDB, asks for an
    action and inserts the records or deletes the stored ones.

    The embedding follows the script function by function:
    - JavaScript numbers that carry measurements are IEEE-754 doubles; a
      finite double is represented by the rational it denotes, and every
      arithmetic operation is the exact operation followed by [fl], rounding
      to the nearest double, ties to even;
    - the strings returned by [toFixed] are kept as fixed-point decimals;
    - a [Date] is its time value (milliseconds since the epoch, in [Z]) and
      the calendar functions are those of ECMA-262, section 21.4.1;
    - [Math.random], the clock, the host time zone, the two answers typed
      by the user and the behaviour of the MongoDB server form the [World];
    - the script itself runs in a state-and-exception monad that records
      every console line and every storage call in a trace. *)

From Stdlib Require Import ZArith QArith Qround Qabs Qpower Qreduction.
From Stdlib Require Import Lia Lqa List String Ascii Bool.
From Stdlib Require Import Decimal DecimalString.
Import ListNotations.

Open Scope Q_scope.

(* ================================================================= *)
(** * Part I: definitions *)
(* ================================================================= *)

(** ** IEEE-754 doubles as rationals *)

(** Nearest integer, ties to even. *)
Definition rne (y : Q) : Z :=
  let f := Qfloor y in
  match Qcompare (y - inject_Z f) (1 # 2) with
  | Lt => f
  | Gt => (f + 1)%Z
  | Eq => if Z.even f then f else (f + 1)%Z
  end.

(** [ilog2 x] is the binary exponent of a positive rational:
    [2 ^ ilog2 x <= x < 2 ^ (ilog2 x + 1)]. *)
Definition ilog2 (x : Q) : Z :=
  let c := (Z.log2 (Qnum x) - Z.log2 (Zpos (Qden x)))%Z in
  if Qle_bool (2 ^ c) x then c else (c - 1)%Z.

(** Rounding of a positive rational to a 53-bit significand. *)
Definition round53 (x : Q) : Q :=
  let s := (ilog2 x - 52)%Z in
  Qred (inject_Z (rne (x / 2 ^ s)) * 2 ^ s).

(** [fl x] is the double nearest to [x].  The exponent range is not
    bounded: no quantity of the script comes near the overflow or the
    subnormal range of binary64. *)
Definition fl (x : Q) : Q :=
  match Qnum x with
  | Z0 => 0
  | Zpos _ => round53 x
  | Zneg _ => - round53 (- x)
  end.

(** Unit roundoff of binary64, [2 ^ -53]. *)
Definition ulp_half : Q := 1 # 9007199254740992.

(** A numeric literal of the source text denotes the nearest double. *)
Definition lit (q : Q) : Q := fl q.

Definition fadd (a b : Q) : Q := fl (a + b).
Definition fsub (a b : Q) : Q := fl (a - b).
Definition fmul (a b : Q) : Q := fl (a * b).

(** ** Fixed-point decimal strings *)

(** The string produced by [x.toFixed(f)]: an integer number of units of
    [10 ^ -f], printed with [f] digits after the point. *)
Record fixed : Type := mkFixed { digits : Z; places : nat }.

Definition pow10 (f : nat) : Q := inject_Z (10 ^ Z.of_nat f).

Definition fixed_value (s : fixed) : Q := inject_Z (digits s) / pow10 (places s).

(** [Number.prototype.toFixed]: "let n be an integer for which
    n / 10^f - x is as close to zero as possible; if there are two such n,
    pick the larger n", on the absolute value, with the sign put back.
    (The exponent form used from 1e21 upwards is out of reach here.) *)
Definition toFixed (x : Q) (f : nat) : fixed :=
  let n := Qfloor (Qabs x * pow10 f + (1 # 2)) in
  mkFixed (match Qcompare x 0 with Lt => (- n)%Z | _ => n end) f.

(** [parseFloat] of a decimal string, which is also what [ToNumber] makes
    of it when the string is an operand of [*]. *)
Definition parseFloat (s : fixed) : Q := fl (fixed_value s).

(** ** [parseInt] *)

(** The value of [parseInt]: [NaN] or an integer.  (The rounding of an
    integer beyond 2^53 to a double is left out: it cannot produce 1 or 2.) *)
Inductive number : Type :=
  | NaN
  | Int (z : Z).

Definition strict_eq (a : number) (k : Z) : bool :=
  match a with
  | NaN => false
  | Int z => Z.eqb z k
  end.

Definition is_white_space (c : ascii) : bool :=
  let n := nat_of_ascii c in
  ((n =? 32) || (n =? 9) || (n =? 10) || (n =? 11) || (n =? 12) || (n =? 13))%nat.

Fixpoint skip_white_space (s : string) : string :=
  match s with
  | String c rest => if is_white_space c then skip_white_space rest else s
  | EmptyString => s
  end.

Definition digit_value (c : ascii) : option Z :=
  let n := Z.of_nat (nat_of_ascii c) in
  if ((48 <=? n) && (n <=? 57))%Z then Some (n - 48)%Z
  else if ((97 <=? n) && (n <=? 122))%Z then Some (n - 87)%Z
  else if ((65 <=? n) && (n <=? 90))%Z then Some (n - 55)%Z
  else None.

(** Longest prefix of digits of the radix, accumulated left to right. *)
Fixpoint parse_digits (radix : Z) (s : string) (acc : option Z) : option Z :=
  match s with
  | String c rest =>
      match digit_value c with
      | Some v =>
          if (v <? radix)%Z
          then parse_digits radix rest
                 (Some (match acc with Some a => a * radix + v | None => v end)%Z)
          else acc
      | None => acc
      end
  | EmptyString => acc
  end.

Definition strip_sign (s : string) : Z * string :=
  match s with
  | String "-"%char rest => ((-1)%Z, rest)
  | String "+"%char rest => (1%Z, rest)
  | _ => (1%Z, s)
  end.

Definition strip_hex_prefix (s : string) : Z * string :=
  match s with
  | String "0"%char (String "x"%char rest) => (16%Z, rest)
  | String "0"%char (String "X"%char rest) => (16%Z, rest)
  | _ => (10%Z, s)
  end.

(** [parseInt(string)] with no radix argument. *)
Definition parseInt (s : string) : number :=
  let (sign, s1) := strip_sign (skip_white_space s) in
  let (radix, s2) := strip_hex_prefix s1 in
  match parse_digits radix s2 None with
  | Some n => Int (sign * n)
  | None => NaN
  end.

(** ** Dates (ECMA-262, 21.4.1) *)

Local Open Scope Z_scope.

Definition msPerSecond : Z := 1000.
Definition msPerMinute : Z := 60000.
Definition msPerHour : Z := 3600000.
Definition msPerDay : Z := 86400000.

Definition Day (t : Z) : Z := t / msPerDay.
Definition TimeWithinDay (t : Z) : Z := t mod msPerDay.

Definition DaysInYear (y : Z) : Z :=
  if negb (y mod 4 =? 0) then 365
  else if negb (y mod 100 =? 0) then 366
  else if negb (y mod 400 =? 0) then 365
  else 366.

Definition DayFromYear (y : Z) : Z :=
  365 * (y - 1970) + (y - 1969) / 4 - (y - 1901) / 100 + (y - 1601) / 400.

(** The largest year whose first day is not after day [d]: an estimate
    from the mean length of a year, corrected by at most one. *)
Definition YearFromDay (d : Z) : Z :=
  let y0 := 1970 + (d * 400) / 146097 in
  if d <? DayFromYear y0 then y0 - 1
  else if DayFromYear (y0 + 1) <=? d then y0 + 1
  else y0.

Definition YearFromTime (t : Z) : Z := YearFromDay (Day t).
Definition InLeapYear (t : Z) : Z :=
  if DaysInYear (YearFromTime t) =? 366 then 1 else 0.
Definition DayWithinYear (t : Z) : Z := Day t - DayFromYear (YearFromTime t).

(** Day within the year on which month [m] (0 = January) starts. *)
Definition month_start (leap m : Z) : Z :=
  match m with
  | 0 => 0
  | 1 => 31
  | 2 => 59 + leap
  | 3 => 90 + leap
  | 4 => 120 + leap
  | 5 => 151 + leap
  | 6 => 181 + leap
  | 7 => 212 + leap
  | 8 => 243 + leap
  | 9 => 273 + leap
  | 10 => 304 + leap
  | _ => 334 + leap
  end.

Definition MonthFromTime (t : Z) : Z :=
  let d := DayWithinYear t in
  let leap := InLeapYear t in
  if d <? 31 then 0
  else if d <? 59 + leap then 1
  else if d <? 90 + leap then 2
  else if d <? 120 + leap then 3
  else if d <? 151 + leap then 4
  else if d <? 181 + leap then 5
  else if d <? 212 + leap then 6
  else if d <? 243 + leap then 7
  else if d <? 273 + leap then 8
  else if d <? 304 + leap then 9
  else if d <? 334 + leap then 10
  else 11.

Definition DateFromTime (t : Z) : Z :=
  DayWithinYear t - month_start (InLeapYear t) (MonthFromTime t) + 1.

Definition HourFromTime (t : Z) : Z := (t / msPerHour) mod 24.
Definition MinFromTime (t : Z) : Z := (t / msPerMinute) mod 60.
Definition SecFromTime (t : Z) : Z := (t / msPerSecond) mod 60.
Definition msFromTime (t : Z) : Z := t mod msPerSecond.

(** [MakeDay]: the day number of the first of the month, which may lie
    outside 0..11 and then carries into the year, plus [date - 1]. *)
Definition MakeDay (year month date : Z) : Z :=
  let ym := year + month / 12 in
  let mn := month mod 12 in
  let leap := if DaysInYear ym =? 366 then 1 else 0 in
  DayFromYear ym + month_start leap mn + date - 1.

Definition MakeDate (day time : Z) : Z := day * msPerDay + time.

Section HostTimeZone.

(** [LocalTZA t isUTC] is the offset of the host time zone in
    milliseconds, at the UTC instant [t] when [isUTC] holds and for the
    local time [t] otherwise. *)
Variable LocalTZA : Z -> bool -> Z.

Definition LocalTime (t : Z) : Z := t + LocalTZA t true.
Definition UTC (t : Z) : Z := t - LocalTZA t false.

Definition getMonth (d : Z) : Z := MonthFromTime (LocalTime d).
Definition getDate (d : Z) : Z := DateFromTime (LocalTime d).
Definition getHours (d : Z) : Z := HourFromTime (LocalTime d).
Definition getMinutes (d : Z) : Z := MinFromTime (LocalTime d).
Definition getSeconds (d : Z) : Z := SecFromTime (LocalTime d).

(** [Date.prototype.setMonth(month)], giving the new time value. *)
Definition setMonth (d month : Z) : Z :=
  let t := LocalTime d in
  UTC (MakeDate (MakeDay (YearFromTime t) month (DateFromTime t))
                (TimeWithinDay t)).

(** [Date.prototype.setDate(date)], giving the new time value. *)
Definition setDate (d date : Z) : Z :=
  let t := LocalTime d in
  UTC (MakeDate (MakeDay (YearFromTime t) (MonthFromTime t) date)
                (TimeWithinDay t)).

End HostTimeZone.

(** ** Strings *)

Local Open Scope string_scope.

Definition Z_to_string (z : Z) : string := NilZero.string_of_int (Z.to_int z).

Fixpoint repeat_char (c : ascii) (n : nat) : string :=
  match n with
  | O => ""
  | S k => String c (repeat_char c k)
  end.

(** [s.padStart(n, c)]. *)
Definition padStart (n : nat) (c : ascii) (s : string) : string :=
  repeat_char c (n - String.length s) ++ s.

Definition pad_number (n : nat) (z : Z) : string := padStart n "0" (Z_to_string z).

(** The year of an ISO date: four digits from 0 to 9999, a sign and six
    digits otherwise. *)
Definition iso_year (y : Z) : string :=
  if ((0 <=? y) && (y <=? 9999))%Z then pad_number 4 y
  else (if (y <? 0)%Z then "-" else "+") ++ pad_number 6 (Z.abs y).

Definition iso_date (t : Z) : string :=
  iso_year (YearFromTime t) ++ "-" ++ pad_number 2 (MonthFromTime t + 1)
    ++ "-" ++ pad_number 2 (DateFromTime t).

(** [Date.prototype.toISOString]: the UTC fields of the time value. *)
Definition toISOString (t : Z) : string :=
  iso_date t ++ "T" ++ pad_number 2 (HourFromTime t) ++ ":"
    ++ pad_number 2 (MinFromTime t) ++ ":" ++ pad_number 2 (SecFromTime t)
    ++ "." ++ pad_number 3 (msFromTime t) ++ "Z".

(** [s.split('T')[0]]: the text before the first [T]. *)
Fixpoint split_T_0 (s : string) : string :=
  match s with
  | EmptyString => ""
  | String c rest => if Ascii.eqb c "T" then "" else String c (split_T_0 rest)
  end.

Section FormatTime.

Variable LocalTZA : Z -> bool -> Z.

(** [formatTime], lines 50-59. *)
Definition formatTime (date : Z) : string :=
  let hours := getHours LocalTZA date in
  let minutes := getMinutes LocalTZA date in
  let seconds := getSeconds LocalTZA date in
  let ampm := if (12 <=? hours)%Z then "PM" else "AM" in
  let hours := hours mod 12 in
  let hours := if (hours =? 0)%Z then 12 else hours in
  Z_to_string hours ++ ":" ++ padStart 2 "0" (Z_to_string minutes) ++ ":"
    ++ padStart 2 "0" (Z_to_string seconds) ++ " " ++ ampm.

End FormatTime.

(** ** Data model *)

Local Close Scope string_scope.
Local Open Scope Q_scope.

(** The object built by [generateRandomData], lines 37-44. *)
Record pzem : Type := mkPzem {
  voltage : Q;
  current : Q;
  power : Q;
  energy : Q;
  frequency : Q;
  pf : Q
}.

(** A record of [dataToInsert], line 84: the random data spread into an
    object with the date, the time and the creation timestamp. *)
Record record : Type := mkRecord {
  data : pzem;
  date : string;
  time : string;
  timestamp : Z
}.

(** A stored document: a record under the [_id] the server gave it. *)
Record document : Type := mkDocument { _id : nat; content : record }.

(** ** The world outside the script *)

Inductive storage_op : Type :=
  | OpConnect
  | OpListCollections
  | OpInsertMany
  | OpFind
  | OpDeleteMany
  | OpDisconnect.

Definition storage_op_eqb (a b : storage_op) : bool :=
  match a, b with
  | OpConnect, OpConnect | OpListCollections, OpListCollections
  | OpInsertMany, OpInsertMany | OpFind, OpFind
  | OpDeleteMany, OpDeleteMany | OpDisconnect, OpDisconnect => true
  | _, _ => false
  end.

Record World : Type := mkWorld {
  (** the successive values of [Math.random()], doubles in [0, 1) *)
  random_values : nat -> Q;
  (** the successive readings of the clock by [new Date()] *)
  clock : nat -> Z;
  (** the host time zone *)
  LocalTZA : Z -> bool -> Z;
  (** what the user types at the two prompts *)
  energyTypeAnswer : string;
  actionAnswer : string;
  (** the storage calls that the server rejects, with the error *)
  fault : storage_op -> option string;
  (** the collection when the script starts, [None] when it does not exist *)
  stored : option (list document)
}.

Inductive message : Type :=
  | GeneratedRandomData (d : pzem)
  | GeneratingDataFromTo (from to : string)
  | PreparedRecord (r : record)
  | ConnectingToMongoDB
  | ConnectedToMongoDB
  | CollectionDoesNotExist
  | InsertingRecords (n : nat)
  | InsertedRecords (n : nat)
  | DeletedRecords (n : nat)
  | NoRecordsFound
  | InvalidAction
  | ErrorPerformingAction (error : string)
  | DisconnectedFromMongoDB.

Inductive question : Type :=
  | AskEnergyType
  | AskAction.

Inductive event : Type :=
  | Console (m : message)
  | Storage (op : storage_op)
  | Prompt (q : question).

(** The state threaded through a run; [trace] has the latest event first. *)
Record State : Type := mkState {
  randoms_drawn : nat;
  clock_reads : nat;
  collection : option (list document);
  next_id : nat;
  trace : list event
}.

Definition initial_state (w : World) : State :=
  mkState 0 0 (stored w) 0 [].

(** ** The monad of the script *)

Inductive Outcome (A : Type) : Type :=
  | Returned (a : A)
  | Thrown (error : string)
  | OutOfFuel.

Arguments Returned {A} a.
Arguments Thrown {A} error.
Arguments OutOfFuel {A}.

Definition M (A : Type) : Type := State -> Outcome A * State.

Definition ret {A} (a : A) : M A := fun st => (Returned a, st).

Definition bind {A B} (m : M A) (k : A -> M B) : M B :=
  fun st =>
    match m st with
    | (Returned a, st') => k a st'
    | (Thrown e, st') => (Thrown e, st')
    | (OutOfFuel, st') => (OutOfFuel, st')
    end.

Definition throw {A} (e : string) : M A := fun st => (Thrown e, st).

Definition out_of_fuel {A} : M A := fun st => (OutOfFuel, st).

Declare Scope monad_scope.
Delimit Scope monad_scope with monad.
Notation "x <- m ;; k" := (bind m (fun x => k))
  (at level 61, m at next level, right associativity) : monad_scope.
Notation "m ;;; k" := (bind m (fun _ => k))
  (at level 61, right associativity) : monad_scope.
Local Open Scope monad_scope.

(** [try { body } catch (error) { handler } finally { finalizer }]: the
    finalizer runs whether the body returned or threw, and an exception of
    the finalizer replaces the outcome. *)
Definition try_catch_finally
    (body : M unit) (handler : string -> M unit) (finalizer : M unit) : M unit :=
  fun st =>
    let after_body :=
      match body st with
      | (Thrown e, st') => handler e st'
      | other => other
      end in
    match after_body with
    | (OutOfFuel, st') => (OutOfFuel, st')
    | (outcome, st') =>
        match finalizer st' with
        | (Returned _, st'') => (outcome, st'')
        | failed => failed
        end
    end.

Definition emit (e : event) : M unit :=
  fun st => (Returned tt,
             mkState (randoms_drawn st) (clock_reads st) (collection st)
                     (next_id st) (e :: trace st)).

Definition console_log (m : message) : M unit := emit (Console m).
Definition console_error (m : message) : M unit := emit (Console m).

(** The increment of line 88, [energyType === 1 ? 0.003 : 0.5]. *)
Definition energy_step (energyType : number) : Q :=
  if strict_eq energyType 1 then lit (3 # 1000) else lit (1 # 2).

(** The energy string for the next day, line 88:
    [(parseFloat(initialEnergy) + step).toFixed(3)]. *)
Definition next_energy (energyType : number) (initialEnergy : fixed) : fixed :=
  toFixed (fadd (parseFloat initialEnergy) (energy_step energyType)) 3.

(** The update of the loop, line 79: [d.setDate(d.getDate() + 1)]. *)
Definition next_day (tz : Z -> bool -> Z) (d : Z) : Z :=
  (setDate tz d (getDate tz d + 1))%Z.

(** Line 65: [twoMonthsAgo.setMonth(today.getMonth() - 2)] on the date
    object [d], giving its new time value. *)
Definition two_months_before (tz : Z -> bool -> Z) (today d : Z) : Z :=
  setMonth tz d (getMonth tz today - 2)%Z.

Section Script.

Variable w : World.

(** [Math.random()]. *)
Definition Math_random : M Q :=
  fun st => (Returned (random_values w (randoms_drawn st)),
             mkState (S (randoms_drawn st)) (clock_reads st) (collection st)
                     (next_id st) (trace st)).

(** [new Date()]. *)
Definition new_Date : M Z :=
  fun st => (Returned (clock w (clock_reads st)),
             mkState (randoms_drawn st) (S (clock_reads st)) (collection st)
                     (next_id st) (trace st)).

(** *** The storage collaborator (mongoose) *)

Definition call (op : storage_op) : M unit :=
  emit (Storage op) ;;;
  match fault w op with
  | Some e => throw e
  | None => ret tt
  end.

Definition set_collection (c : option (list document)) (n : nat) : M unit :=
  fun st => (Returned tt,
             mkState (randoms_drawn st) (clock_reads st) c n (trace st)).

Definition get_collection : M (option (list document)) :=
  fun st => (Returned (collection st), st).

Definition get_next_id : M nat := fun st => (Returned (next_id st), st).

Definition mongoose_connect : M unit := call OpConnect.

(** [listCollections({ name }).toArray()]: the number of collections of
    that name. *)
Definition listCollections : M nat :=
  call OpListCollections ;;;
  c <- get_collection ;;
  ret (match c with Some _ => 1%nat | None => 0%nat end).

Fixpoint assign_ids (n : nat) (rs : list record) : list document :=
  match rs with
  | [] => []
  | r :: rest => mkDocument n r :: assign_ids (S n) rest
  end.

Definition insertMany (rs : list record) : M (list document) :=
  call OpInsertMany ;;;
  c <- get_collection ;;
  n <- get_next_id ;;
  let docs := assign_ids n rs in
  set_collection (Some (match c with Some old => old | None => [] end ++ docs))
                 (n + List.length rs) ;;;
  ret docs.

Definition find_all : M (list document) :=
  call OpFind ;;;
  c <- get_collection ;;
  ret (match c with Some docs => docs | None => [] end).

Definition id_in (ids : list nat) (d : document) : bool :=
  existsb (Nat.eqb (_id d)) ids.

(** [deleteMany({ _id: { $in: ids } })], giving [deletedCount]. *)
Definition deleteMany (ids : list nat) : M nat :=
  call OpDeleteMany ;;;
  c <- get_collection ;;
  n <- get_next_id ;;
  match c with
  | Some docs =>
      set_collection (Some (filter (fun d => negb (id_in ids d)) docs)) n ;;;
      ret (List.length (filter (id_in ids) docs))
  | None => ret 0%nat
  end.

Definition mongoose_disconnect : M unit := call OpDisconnect.

(** *** The functions of the script *)

(** [generateRandomData], lines 27-47. *)
Definition generateRandomData (energy : Q) : M pzem :=
  r <- Math_random ;;
  let voltage := toFixed (fadd (fmul r (fsub (lit 245) (lit 225))) (lit 225)) 1 in
  r <- Math_random ;;
  let pf := toFixed (fadd (fmul r (lit (1 # 10))) (lit (8 # 10))) 2 in
  r <- Math_random ;;
  let current :=
    toFixed (fadd (fmul r (fsub (lit 1) (lit (1 # 100)))) (lit (1 # 100))) 3 in
  let power :=
    toFixed (fmul (fmul (parseFloat voltage) (parseFloat current))
                  (parseFloat pf)) 2 in
  r <- Math_random ;;
  let frequency := toFixed (fadd (fmul r (lit (1 # 10))) (lit (498 # 10))) 1 in
  let formattedEnergy := toFixed energy 3 in
  let data :=
    mkPzem (parseFloat voltage) (parseFloat current) (parseFloat power)
           (parseFloat formattedEnergy) (parseFloat frequency)
           (parseFloat pf) in
  console_log (GeneratedRandomData data) ;;;
  ret data.

(** The starting energy, lines 70-75. *)
Definition initialEnergy (energyType : number) : M fixed :=
  r <- Math_random ;;
  if strict_eq energyType 1
  then ret (toFixed (fadd (fmul r (fsub (lit 1) (lit (1 # 2)))) (lit (1 # 2))) 3)
  else ret (toFixed (fadd (fmul r (fsub (lit 250) (lit 150))) (lit 150)) 3).

(** The loop of lines 79-90; [d] is the time value of the date object
    that the loop advances in place. *)
Fixpoint daily_loop (fuel : nat) (energyType : number) (today d : Z)
    (initialEnergy : fixed) (dataToInsert : list record) : M (list record) :=
  match fuel with
  | O => out_of_fuel
  | S fuel' =>
      if (d <=? today)%Z then
        let dateString := split_T_0 (toISOString d) in
        let timeString := formatTime (LocalTZA w) d in
        randomData <- generateRandomData (parseFloat initialEnergy) ;;
        now <- new_Date ;;
        let record := mkRecord randomData dateString timeString now in
        let initialEnergy' := next_energy energyType initialEnergy in
        console_log (PreparedRecord record) ;;;
        daily_loop fuel' energyType today (next_day (LocalTZA w) d)
          initialEnergy' (dataToInsert ++ [record])
      else ret dataToInsert
  end.

(** Lines 63-90: the series that the script prepares. *)
Definition prepare_series (fuel : nat) (energyType : number) : M (list record) :=
  today <- new_Date ;;
  twoMonthsAgo <- new_Date ;;
  let twoMonthsAgo := two_months_before (LocalTZA w) today twoMonthsAgo in
  e0 <- initialEnergy energyType ;;
  console_log (GeneratingDataFromTo (split_T_0 (toISOString twoMonthsAgo))
                                    (split_T_0 (toISOString today))) ;;;
  daily_loop fuel energyType today twoMonthsAgo e0 [].

(** [askUserAction], lines 129-141. *)
Definition askUserAction : M number :=
  emit (Prompt AskAction) ;;;
  ret (parseInt (actionAnswer w)).

(** [askEnergyType], lines 144-156. *)
Definition askEnergyType : M number :=
  emit (Prompt AskEnergyType) ;;;
  ret (parseInt (energyTypeAnswer w)).

(** The body of the [try] block, lines 93-119. *)
Definition storage_block (dataToInsert : list record) : M unit :=
  console_log ConnectingToMongoDB ;;;
  mongoose_connect ;;;
  console_log ConnectedToMongoDB ;;;
  collections <- listCollections ;;
  (if (collections =? 0)%nat then console_log CollectionDoesNotExist else ret tt) ;;;
  action <- askUserAction ;;
  if strict_eq action 1 then
    console_log (InsertingRecords (List.length dataToInsert)) ;;;
    insertedRecords <- insertMany dataToInsert ;;
    console_log (InsertedRecords (List.length insertedRecords))
  else if strict_eq action 2 then
    recordsToDelete <- find_all ;;
    if (0 <? List.length recordsToDelete)%nat then
      let idsToDelete := map _id recordsToDelete in
      deletedCount <- deleteMany idsToDelete ;;
      console_log (DeletedRecords deletedCount)
    else console_log NoRecordsFound
  else console_log InvalidAction.

(** [generateDataForTwoMonths], lines 62-126. *)
Definition generateDataForTwoMonths (fuel : nat) (energyType : number) : M unit :=
  dataToInsert <- prepare_series fuel energyType ;;
  try_catch_finally
    (storage_block dataToInsert)
    (fun error => console_error (ErrorPerformingAction error))
    (mongoose_disconnect ;;; console_log DisconnectedFromMongoDB).

(** [runDataGeneration], lines 159-162. *)
Definition runDataGeneration (fuel : nat) : M unit :=
  energyType <- askEnergyType ;;
  generateDataForTwoMonths fuel energyType.

(** A whole run of the script from its initial state. *)
Definition run (fuel : nat) : Outcome unit * State :=
  runDataGeneration fuel (initial_state w).

End Script.

(** ** Observations on a finished run *)

(** The events in the order in which they happened. *)
Definition history (st : State) : list event := List.rev (trace st).

Fixpoint storage_calls (tr : list event) : list storage_op :=
  match tr with
  | [] => []
  | Storage op :: rest => op :: storage_calls rest
  | _ :: rest => storage_calls rest
  end.

Fixpoint console_lines (tr : list event) : list message :=
  match tr with
  | [] => []
  | Console m :: rest => m :: console_lines rest
  | _ :: rest => console_lines rest
  end.

(** The records announced by [Prepared record for insertion]. *)
Fixpoint prepared_records (tr : list event) : list record :=
  match tr with
  | [] => []
  | Console (PreparedRecord r) :: rest => r :: prepared_records rest
  | _ :: rest => prepared_records rest
  end.

Definition count_calls (op : storage_op) (tr : list event) : nat :=
  List.length (filter (storage_op_eqb op) (storage_calls tr)).

(** ** The series as a function of the world *)

(** The functions below describe, without the monad, what the script
    computes; Part II proves that the script computes just that. *)

(** The data object built from the random values number [i] to [i + 3],
    drawn in the order of the source: voltage, power factor, current,
    frequency. *)
Definition sample (w : World) (energy : Q) (i : nat) : pzem :=
  let voltage :=
    toFixed (fadd (fmul (random_values w i) (fsub (lit 245) (lit 225))) (lit 225)) 1 in
  let pf :=
    toFixed (fadd (fmul (random_values w (S i)) (lit (1 # 10))) (lit (8 # 10))) 2 in
  let current :=
    toFixed (fadd (fmul (random_values w (S (S i))) (fsub (lit 1) (lit (1 # 100))))
                  (lit (1 # 100))) 3 in
  let power :=
    toFixed (fmul (fmul (parseFloat voltage) (parseFloat current)) (parseFloat pf)) 2 in
  let frequency :=
    toFixed (fadd (fmul (random_values w (S (S (S i)))) (lit (1 # 10))) (lit (498 # 10))) 1 in
  mkPzem (parseFloat voltage) (parseFloat current) (parseFloat power)
         (parseFloat (toFixed energy 3)) (parseFloat frequency) (parseFloat pf).

(** The records of [n] consecutive turns of the loop that start with the
    date [d], the energy string [e], and the random value and the clock
    reading of those numbers. *)
Fixpoint series (w : World) (energyType : number) (n : nat) (d : Z) (e : fixed)
    (ri ci : nat) : list record :=
  match n with
  | O => []
  | S n' =>
      mkRecord (sample w (parseFloat e) ri) (split_T_0 (toISOString d))
               (formatTime (LocalTZA w) d) (clock w ci)
        :: series w energyType n' (next_day (LocalTZA w) d)
             (next_energy energyType e) (4 + ri) (S ci)
  end.

(** The starting energy string, drawn from random value number [i]. *)
Definition first_energy (w : World) (energyType : number) (i : nat) : fixed :=
  if strict_eq energyType 1
  then toFixed (fadd (fmul (random_values w i) (fsub (lit 1) (lit (1 # 2))))
                     (lit (1 # 2))) 3
  else toFixed (fadd (fmul (random_values w i) (fsub (lit 250) (lit 150)))
                     (lit 150)) 3.

(** [today] and [twoMonthsAgo] when the clock has been read [c] times. *)
Definition today_date (w : World) (c : nat) : Z := clock w c.

Definition start_date (w : World) (c : nat) : Z :=
  two_months_before (LocalTZA w) (clock w c) (clock w (S c)).

(** The date of turn [i] of the loop and the energy string of turn [i]. *)
Definition nth_day (tz : Z -> bool -> Z) (d : Z) (i : nat) : Z :=
  Nat.iter i (next_day tz) d.

Definition nth_energy (energyType : number) (e : fixed) (i : nat) : fixed :=
  Nat.iter i (next_energy energyType) e.

(** The step of the energy in thousandths. *)
Definition step_digits (energyType : number) : Z :=
  if strict_eq energyType 1 then 3%Z else 500%Z.

(** [Math.random] stays in [0, 1). *)
Definition random_in_unit_interval (w : World) : Prop :=
  forall n, 0 <= random_values w n /\ random_values w n < 1.

(** ** The properties claimed of a data object *)

(** [x] is the double read from a decimal string of [f] places whose
    digits lie between [lo] and [hi]. *)
Definition decimal_between (x : Q) (lo hi : Z) (f : nat) : Prop :=
  exists k : Z, (lo <= k <= hi)%Z /\ x = parseFloat (mkFixed k f).

(** The randomised fields, as decimal strings and as doubles compared with
    the doubles that the literals 225, 245, 0.01, 1, 0.8, 0.9, 49.8 and 49.9
    denote. *)
Record fields_in_range (d : pzem) : Prop := {
  voltage_decimal : decimal_between (voltage d) 2250 2450 1;
  current_decimal : decimal_between (current d) 10 1000 3;
  pf_decimal : decimal_between (pf d) 80 90 2;
  frequency_decimal : decimal_between (frequency d) 498 499 1;
  voltage_range : lit 225 <= voltage d /\ voltage d <= lit 245;
  current_range : lit (1 # 100) <= current d /\ current d <= lit 1;
  pf_range : lit (8 # 10) <= pf d /\ pf d <= lit (9 # 10);
  frequency_range : lit (498 # 10) <= frequency d /\ frequency d <= lit (499 # 10)
}.

(** The power is computed from the fields of the same object, rounded to
    two decimals, which puts it within half a cent, and a rounding error
    below [10 ^ -12], of their exact product. *)
Definition power_tolerance : Q := (1 # 200) + (1 # 1000000000000).

Record power_is_product (d : pzem) : Prop := {
  power_computed :
    power d = parseFloat (toFixed (fmul (fmul (voltage d) (current d)) (pf d)) 2);
  power_two_decimals : exists k : Z, power d = parseFloat (mkFixed k 2);
  power_close :
    voltage d * current d * pf d - power_tolerance <= power d /\
    power d <= voltage d * current d * pf d + power_tolerance
}.

(** The console lines of the generation phase. *)
Definition is_generation_event (e : event) : bool :=
  match e with
  | Console (GeneratedRandomData _) => true
  | Console (GeneratingDataFromTo _ _) => true
  | Console (PreparedRecord _) => true
  | _ => false
  end.

(** ** Worlds used as examples *)

(** India Standard Time: UTC+05:30 all year. *)
Definition tz_india : Z -> bool -> Z := fun _ _ => 19800000%Z.

(** Europe/London in 2024: UTC until 2024-03-31T01:00:00Z, UTC+1 until
    2024-10-27T01:00:00Z, UTC afterwards.  A local time that is skipped or
    repeated is read with the offset in force before the change. *)
Definition tz_london : Z -> bool -> Z :=
  fun t isUTC =>
    let shift := if isUTC then 0%Z else 3600000%Z in
    if (t <? 1711846800000 + shift)%Z then 0%Z
    else if (t <? 1729990800000 + shift)%Z then 3600000%Z
    else 0%Z.

Definition demo_randoms : nat -> Q :=
  fun n => if Nat.even n then 1 # 3 else 7 # 10.

(** 2024-04-29T06:30:45.123Z, with a clock that does not advance during
    the run. *)
Definition demo_world : World :=
  mkWorld demo_randoms (fun _ => 1714372245123%Z) tz_india
          "1"%string "1"%string (fun _ => None) None.

Definition with_clock (w : World) (c : nat -> Z) : World :=
  mkWorld (random_values w) c (LocalTZA w) (energyTypeAnswer w)
          (actionAnswer w) (fault w) (stored w).

Definition with_time_zone (w : World) (tz : Z -> bool -> Z) : World :=
  mkWorld (random_values w) (clock w) tz (energyTypeAnswer w)
          (actionAnswer w) (fault w) (stored w).

Definition with_answers (w : World) (energyType action : string) : World :=
  mkWorld (random_values w) (clock w) (LocalTZA w) energyType action
          (fault w) (stored w).

Definition with_fault (w : World) (f : storage_op -> option string) : World :=
  mkWorld (random_values w) (clock w) (LocalTZA w) (energyTypeAnswer w)
          (actionAnswer w) f (stored w).

Definition with_stored (w : World) (c : option (list document)) : World :=
  mkWorld (random_values w) (clock w) (LocalTZA w) (energyTypeAnswer w)
          (actionAnswer w) (fault w) c.

(** The records of a generation phase that returned, [[]] otherwise. *)
Definition records_of (result : Outcome (list record) * State) : list record :=
  match fst result with
  | Returned recs => recs
  | _ => []
  end.

Definition demo_records : list record :=
  records_of (prepare_series demo_world 100 (Int 1) (initial_state demo_world)).

(** ** The properties claimed of the energy *)

(** The energy strings are followed exactly as long as they stay below
    [energy_bound] thousandths, far beyond any series of [series_bound]
    records. *)
Definition energy_bound : Z := 1000000000000000.
Definition series_bound : Z := 1000000000.

(** The energy of record [i] is the double of a three-decimal string,
    and the strings advance by [step] thousandths from [k0]. *)
Definition arithmetic_energies (recs : list record) (k0 step : Z) : Prop :=
  forall i r,
    nth_error recs i = Some r ->
    energy (data r) = parseFloat (mkFixed (k0 + Z.of_nat i * step) 3).

Definition nondecreasing_energies (recs : list record) : Prop :=
  forall i r r',
    nth_error recs i = Some r -> nth_error recs (S i) = Some r' ->
    energy (data r) <= energy (data r').

(** The difference of two consecutive energies, rounded to three
    decimals, is the step. *)
Definition energy_differences (recs : list record) (step : Z) : Prop :=
  forall i r r',
    nth_error recs i = Some r -> nth_error recs (S i) = Some r' ->
    toFixed (energy (data r') - energy (data r)) 3 = mkFixed step 3.

(** The range of the starting energy: 0.5 to 1.0 for energy type 1
    (normal), 150.0 to 250.0 otherwise (greater), on the digits of the
    three-decimal string and on the double read from it. *)
Definition initial_energy_range (energyType : number) (e0 : fixed) : Prop :=
  places e0 = 3%nat /\
  if strict_eq energyType 1
  then (500 <= digits e0 <= 1000)%Z /\
       lit (1 # 2) <= parseFloat e0 /\ parseFloat e0 <= lit 1
  else (150000 <= digits e0 <= 250000)%Z /\
       lit 150 <= parseFloat e0 /\ parseFloat e0 <= lit 250.

(** ** The properties claimed of the time string *)

Local Open Scope string_scope.

(** The hour of a twelve-hour clock: 1 to 12, with 0 shown as 12. *)
Definition twelve_hour (hours : Z) : Z :=
  if (hours mod 12 =? 0)%Z then 12%Z else (hours mod 12)%Z.

Definition two_digits (n : Z) : string := padStart 2 "0" (Z_to_string n).

(** [s] is the time of day [hours:minutes:seconds] in twelve-hour form:
    the hour from 1 to 12 without padding, minutes and seconds on two
    digits, then [AM] before noon and [PM] from noon on. *)
Definition twelve_hour_format (s : string) (hours minutes seconds : Z) : Prop :=
  s = Z_to_string (twelve_hour hours) ++ ":" ++ two_digits minutes ++ ":"
        ++ two_digits seconds ++ " " ++ (if (12 <=? hours)%Z then "PM" else "AM")
  /\ (1 <= twelve_hour hours <= 12)%Z
  /\ (hours = 0%Z -> twelve_hour hours = 12%Z)
  /\ String.length (two_digits minutes) = 2%nat
  /\ String.length (two_digits seconds) = 2%nat.

Local Close Scope string_scope.

(** The host time zone keeps one offset from UTC. *)
Definition fixed_offset (tz : Z -> bool -> Z) (z : Z) : Prop :=
  forall t isUTC, tz t isUTC = z.

(** A run in London at 01:30:15 local time on 10 May 2024
    (2024-05-10T00:30:15Z); the two months before it contain the start of
    summer time. *)
Definition london_world : World :=
  with_time_zone (with_clock demo_world (fun _ => 1715301015000%Z)) tz_london.

Definition london_records : list record :=
  records_of (prepare_series london_world 100 (Int 1) (initial_state london_world)).

(** ** The events of the storage block *)

(** The state after one more event. *)
Definition log_event (e : event) (st : State) : State :=
  mkState (randoms_drawn st) (clock_reads st) (collection st) (next_id st)
          (e :: trace st).

(** The documents of a collection, none when it does not exist. *)
Definition existing (c : option (list document)) : list document :=
  match c with
  | Some docs => docs
  | None => []
  end.

(** What happens, in order, from the connection to the prompt for the
    action when the server answers; the missing collection is announced. *)
Definition connection_events (c : option (list document)) : list event :=
  [Console ConnectingToMongoDB; Storage OpConnect; Console ConnectedToMongoDB;
   Storage OpListCollections]
  ++ match c with
     | Some _ => []
     | None => [Console CollectionDoesNotExist]
     end
  ++ [Prompt AskAction].

(** The [finally] block. *)
Definition release_events : list event :=
  [Storage OpDisconnect; Console DisconnectedFromMongoDB].

(** A server that refuses one kind of call. *)
Definition failing (op : storage_op) (error : string) : storage_op -> option string :=
  fun op' => if storage_op_eqb op' op then Some error else None.

Definition some_record : record :=
  mkRecord (mkPzem 230 (1 # 2) (9775 # 100) 1 (499 # 10) (85 # 100))
           "2024-01-01"%string "1:00:00 PM"%string 1704094200000%Z.

(** The user chooses to delete; the collection holds two documents. *)
Definition delete_world : World :=
  with_stored (with_answers demo_world "1"%string "2"%string)
              (Some [mkDocument 7 some_record; mkDocument 8 some_record]).

Definition delete_records : list record :=
  records_of (prepare_series delete_world 100 (Int 1) (initial_state delete_world)).

(** The server cannot be reached. *)
Definition offline_world : World :=
  with_fault demo_world (failing OpConnect "ECONNREFUSED"%string).

Definition offline_records : list record :=
  records_of (prepare_series offline_world 100 (Int 1) (initial_state offline_world)).

(** The connection cannot be closed. *)
Definition stuck_world : World :=
  with_fault demo_world (failing OpDisconnect "ECONNRESET"%string).

Definition stuck_records : list record :=
  records_of (prepare_series stuck_world 100 (Int 1) (initial_state stuck_world)).

(** ** More observations *)

(** The questions put to the user, in order. *)
Fixpoint prompts (tr : list event) : list question :=
  match tr with
  | [] => []
  | Prompt q :: rest => q :: prompts rest
  | _ :: rest => prompts rest
  end.

(** The server answers the two calls that precede the prompt for the
    action. *)
Definition connects (w : World) : bool :=
  match fault w OpConnect, fault w OpListCollections with
  | None, None => true
  | _, _ => false
  end.

(** The user types [2abc], after two blanks, at both prompts. *)
Definition sloppy_world : World :=
  with_answers demo_world "  2abc"%string "  2abc"%string.



(** The user chooses to delete; the collection does not exist. *)
Definition bare_world : World := with_answers demo_world "1"%string "2"%string.

Definition bare_records : list record :=
  records_of (prepare_series bare_world 100 (Int 1) (initial_state bare_world)).

(** The insertion is refused by the server. *)
Definition readonly_world : World :=
  with_fault demo_world (failing OpInsertMany "E11000"%string).

(** The two console lines of one turn of the loop: the data object, printed
    by [generateRandomData], then the record. *)
Definition record_lines (r : record) : list event :=
  [Console (GeneratedRandomData (data r)); Console (PreparedRecord r)].

(* ================================================================= *)
(** * Part II: properties *)
(* ================================================================= *)

(** ** Rounding to the nearest double *)

Lemma floor_bounds (y : Q) :
  inject_Z (Qfloor y) <= y /\ y < inject_Z (Qfloor y) + 1.
Proof.
  split; [apply Qfloor_le|].
  generalize (Qlt_floor y). rewrite inject_Z_plus. auto.
Qed.

Lemma rne_near (y : Q) :
  y - (1 # 2) <= inject_Z (rne y) /\ inject_Z (rne y) <= y + (1 # 2).
Proof.
  unfold rne. destruct (floor_bounds y) as [Hl Hu].
  destruct (Qcompare_spec (y - inject_Z (Qfloor y)) (1 # 2)) as [E|E|E].
  - destruct (Z.even (Qfloor y)); [lra|].
    rewrite inject_Z_plus. change (inject_Z 1) with 1. lra.
  - lra.
  - rewrite inject_Z_plus. change (inject_Z 1) with 1. lra.
Qed.

Lemma inject_Z_lt_succ (a b : Z) : inject_Z a < inject_Z b + 1 -> (a <= b)%Z.
Proof.
  intros H. change 1 with (inject_Z 1) in H. rewrite <- inject_Z_plus in H.
  rewrite <- Zlt_Qlt in H. lia.
Qed.

Lemma rne_mono (x y : Q) : x <= y -> (rne x <= rne y)%Z.
Proof.
  intros Hxy.
  pose proof (Qfloor_resp_le _ _ Hxy) as Hf.
  destruct (floor_bounds x) as [Hxl Hxu], (floor_bounds y) as [Hyl Hyu].
  assert (Hrx : (Qfloor x <= rne x <= Qfloor x + 1)%Z).
  { unfold rne. destruct (Qcompare _ _); try destruct (Z.even _); lia. }
  assert (Hry : (Qfloor y <= rne y <= Qfloor y + 1)%Z).
  { unfold rne. destruct (Qcompare _ _); try destruct (Z.even _); lia. }
  destruct (Z.eq_dec (Qfloor x) (Qfloor y)) as [E|N]; [|lia].
  unfold rne. rewrite <- E.
  destruct (Qcompare_spec (x - inject_Z (Qfloor x)) (1 # 2)) as [Ex|Ex|Ex];
  destruct (Qcompare_spec (y - inject_Z (Qfloor x)) (1 # 2)) as [Ey|Ey|Ey];
  try destruct (Z.even (Qfloor x)); try lia; exfalso; lra.
Qed.

Lemma rne_inject_Z (n : Z) : rne (inject_Z n) = n.
Proof.
  unfold rne. rewrite Qfloor_Z.
  destruct (Qcompare_spec (inject_Z n - inject_Z n) (1 # 2)) as [E|E|E];
    try reflexivity; exfalso; lra.
Qed.

Lemma rne_comp (x y : Q) : x == y -> rne x = rne y.
Proof.
  intros E. apply Z.le_antisymm; apply rne_mono; rewrite E; apply Qle_refl.
Qed.

Lemma pow2_pos (n : Z) : 0 < 2 ^ n.
Proof. apply Qpower_0_lt. reflexivity. Qed.

Lemma pow2_succ (n : Z) : 2 ^ (n + 1) == 2 * 2 ^ n.
Proof. rewrite Qpower_plus by discriminate. change (2 ^ 1) with 2. ring. Qed.

Lemma pow2_le (a b : Z) : (a <= b)%Z -> 2 ^ a <= 2 ^ b.
Proof. intros. apply Qpower_le_compat_l; [assumption | discriminate]. Qed.

Lemma pow2_inject (n : Z) : (0 <= n)%Z -> inject_Z (2 ^ n) == 2 ^ n.
Proof. intros. rewrite Zpower_Qpower by assumption. reflexivity. Qed.

Lemma log2_bounds (p : positive) :
  2 ^ Z.log2 (Zpos p) <= inject_Z (Zpos p) /\
  inject_Z (Zpos p) < 2 ^ (Z.log2 (Zpos p) + 1).
Proof.
  pose proof (Z.log2_spec (Zpos p) eq_refl) as [Hl Hu].
  pose proof (Z.log2_nonneg (Zpos p)) as Hn.
  rewrite <- !pow2_inject by lia.
  rewrite <- Zle_Qle, <- Zlt_Qlt. change (Z.succ ?x) with (x + 1)%Z in Hu. lia.
Qed.

Lemma ilog2_spec (x : Q) : 0 < x -> 2 ^ ilog2 x <= x /\ x < 2 ^ (ilog2 x + 1).
Proof.
  intros Hx. destruct x as [n d]. 
  assert (Hn : (0 < n)%Z) by (unfold Qlt in Hx; simpl in Hx; lia).
  destruct n as [|p|p]; try lia.
  unfold ilog2. cbn [Qnum Qden].
  destruct (log2_bounds p) as [Hpl Hpu], (log2_bounds d) as [Hdl Hdu].
  set (lp := Z.log2 (Zpos p)) in *. set (ld := Z.log2 (Zpos d)) in *.
  assert (Hx' : Zpos p # d == inject_Z (Zpos p) / inject_Z (Zpos d)) by apply Qmake_Qdiv.
  assert (Hd0 : 0 < inject_Z (Zpos d)) by reflexivity.
  assert (Hmul : (Zpos p # d) * inject_Z (Zpos d) == inject_Z (Zpos p)).
  { rewrite Hx'. field. intro E. rewrite E in Hd0. discriminate. }
  pose proof (pow2_pos ld) as Pld. pose proof (pow2_pos lp) as Plp.
  pose proof (pow2_pos (lp - ld)) as Pc. pose proof (pow2_pos (lp - ld - 1)) as Pc1.
  assert (Hsplit : 2 ^ lp == 2 ^ (lp - ld) * 2 ^ ld).
  { rewrite <- Qpower_plus by discriminate. f_equiv. lia. }
  assert (Hup : (Zpos p # d) < 2 ^ (lp - ld + 1)).
  { rewrite pow2_succ in Hpu. rewrite pow2_succ.
    apply Qmult_lt_r with (z := inject_Z (Zpos d)); [assumption|].
    rewrite Hmul. nra. }
  destruct (Qle_bool (2 ^ (lp - ld)) (Zpos p # d)) eqn:Eb.
  - apply Qle_bool_iff in Eb. split; assumption.
  - assert (Hlt : (Zpos p # d) < 2 ^ (lp - ld)).
    { apply Qnot_le_lt. intros C. apply Qle_bool_iff in C. congruence. }
    replace (lp - ld - 1 + 1)%Z with (lp - ld)%Z by lia. split; [|assumption].
    assert (E1 : 2 ^ (lp - ld) == 2 * 2 ^ (lp - ld - 1)).
    { rewrite <- pow2_succ. f_equiv. lia. }
    rewrite pow2_succ in Hdu.
    apply Qmult_le_r with (z := inject_Z (Zpos d)); [assumption|].
    rewrite Hmul. nra.
Qed.
Lemma pow2_53 : 2 ^ 53 == 9007199254740992.
Proof. reflexivity. Qed.

Lemma pow2_m53 (e : Z) : 2 ^ (e - 53) == 2 ^ e * ulp_half.
Proof.
  unfold Z.sub. rewrite Qpower_plus by discriminate. reflexivity.
Qed.

Lemma round53_scaled (x : Q) :
  round53 x == inject_Z (rne (x / 2 ^ (ilog2 x - 52))) * 2 ^ (ilog2 x - 52).
Proof. unfold round53. apply Qred_correct. Qed.

Lemma scaled_bounds (x : Q) :
  0 < x ->
  2 ^ 52 <= x / 2 ^ (ilog2 x - 52) /\ x / 2 ^ (ilog2 x - 52) <= 2 ^ 53.
Proof.
  intros Hx. destruct (ilog2_spec x Hx) as [Hl Hu].
  set (e := ilog2 x) in *.
  pose proof (pow2_pos (e - 52)) as Ps.
  assert (E1 : 2 ^ e == 2 ^ 52 * 2 ^ (e - 52)).
  { rewrite <- Qpower_plus by discriminate. f_equiv. lia. }
  assert (E2 : 2 ^ (e + 1) == 2 ^ 53 * 2 ^ (e - 52)).
  { rewrite <- Qpower_plus by discriminate. f_equiv. lia. }
  split.
  - apply Qle_shift_div_l; [assumption|]. rewrite <- E1. assumption.
  - apply Qle_shift_div_r; [assumption|]. rewrite <- E2. apply Qlt_le_weak. assumption.
Qed.

Lemma mantissa_bounds (x : Q) :
  0 < x ->
  (2 ^ 52 <= rne (x / 2 ^ (ilog2 x - 52)) <= 2 ^ 53)%Z.
Proof.
  intros Hx. destruct (scaled_bounds x Hx) as [Hl Hu].
  split.
  - rewrite <- (rne_inject_Z (2 ^ 52)). apply rne_mono. exact Hl.
  - rewrite <- (rne_inject_Z (2 ^ 53)). apply rne_mono. exact Hu.
Qed.

Lemma round53_err (x : Q) :
  0 < x -> x * (1 - ulp_half) <= round53 x /\ round53 x <= x * (1 + ulp_half).
Proof.
  intros Hx. rewrite round53_scaled.
  destruct (ilog2_spec x Hx) as [Hl _].
  set (e := ilog2 x) in *.
  pose proof (pow2_pos (e - 52)) as Ps.
  destruct (rne_near (x / 2 ^ (e - 52))) as [Ml Mu].
  set (m := inject_Z (rne (x / 2 ^ (e - 52)))) in *.
  assert (Ex : x == (x / 2 ^ (e - 52)) * 2 ^ (e - 52)).
  { field. intro E. rewrite E in Ps. discriminate. }
  set (y := x / 2 ^ (e - 52)) in *.
  assert (E1 : 2 ^ e * ulp_half == (1 # 2) * 2 ^ (e - 52)).
  { rewrite <- pow2_m53. replace (e - 52)%Z with (e - 53 + 1)%Z by lia.
    rewrite pow2_succ. ring. }
  assert (Hh : (1 # 2) * 2 ^ (e - 52) <= x * ulp_half).
  { rewrite <- E1. apply Qmult_le_compat_r; [assumption | discriminate]. }
  split; nra.
Qed.

Lemma round53_pos (x : Q) : 0 < x -> 0 < round53 x.
Proof.
  intros Hx. destruct (round53_err x Hx) as [H _].
  eapply Qlt_le_trans; [|exact H]. unfold ulp_half. nra.
Qed.

Lemma ilog2_mono (x y : Q) : 0 < x -> x <= y -> (ilog2 x <= ilog2 y)%Z.
Proof.
  intros Hx Hxy. assert (Hy : 0 < y) by lra.
  destruct (ilog2_spec x Hx) as [Hxl _], (ilog2_spec y Hy) as [_ Hyu].
  destruct (Z_le_gt_dec (ilog2 x) (ilog2 y)) as [L|G]; [assumption|exfalso].
  assert (2 ^ (ilog2 y + 1) <= 2 ^ ilog2 x) by (apply pow2_le; lia).
  lra.
Qed.

Lemma round53_mono (x y : Q) : 0 < x -> x <= y -> round53 x <= round53 y.
Proof.
  intros Hx Hxy. assert (Hy : 0 < y) by lra.
  pose proof (ilog2_mono x y Hx Hxy) as He.
  rewrite !round53_scaled.
  destruct (Z.eq_dec (ilog2 x) (ilog2 y)) as [E|N].
  - rewrite <- E. pose proof (pow2_pos (ilog2 x - 52)) as Ps.
    apply Qmult_le_compat_r; [|lra].
    rewrite <- Zle_Qle. apply rne_mono.
    apply Qmult_le_compat_r; [assumption|].
    apply Qlt_le_weak, Qinv_lt_0_compat, Ps.
  - destruct (mantissa_bounds x Hx) as [_ Mx], (mantissa_bounds y Hy) as [My _].
    pose proof (pow2_pos (ilog2 x - 52)) as Psx.
    pose proof (pow2_pos (ilog2 y - 52)) as Psy.
    apply Qle_trans with (2 ^ (ilog2 x + 1)).
    + assert (E2 : 2 ^ (ilog2 x + 1) == 2 ^ 53 * 2 ^ (ilog2 x - 52)).
      { rewrite <- Qpower_plus by discriminate. f_equiv. lia. }
      rewrite E2. apply Qmult_le_compat_r; [|lra].
      rewrite <- (pow2_inject 53) by lia. rewrite <- Zle_Qle. exact Mx.
    + apply Qle_trans with (2 ^ ilog2 y); [apply pow2_le; lia|].
      assert (E1 : 2 ^ ilog2 y == 2 ^ 52 * 2 ^ (ilog2 y - 52)).
      { rewrite <- Qpower_plus by discriminate. f_equiv. lia. }
      rewrite E1. apply Qmult_le_compat_r; [|lra].
      rewrite <- (pow2_inject 52) by lia. rewrite <- Zle_Qle. exact My.
Qed.

Lemma fl_nonneg_cases (x : Q) : 0 <= x -> (x == 0 /\ fl x = 0) \/ (0 < x /\ fl x = round53 x).
Proof.
  intros Hx. destruct x as [n d]. unfold fl. cbn [Qnum].
  destruct n as [|p|p].
  - left. split; reflexivity.
  - right. split; reflexivity.
  - exfalso. unfold Qle in Hx. simpl in Hx. lia.
Qed.

Lemma fl_err (x : Q) :
  0 <= x -> x * (1 - ulp_half) <= fl x /\ fl x <= x * (1 + ulp_half).
Proof.
  intros Hx. destruct (fl_nonneg_cases x Hx) as [[E ->]|[P ->]].
  - rewrite E. split; discriminate.
  - apply round53_err, P.
Qed.

Lemma fl_nonneg (x : Q) : 0 <= x -> 0 <= fl x.
Proof.
  intros Hx. destruct (fl_err x Hx) as [H _].
  eapply Qle_trans; [|exact H]. unfold ulp_half. nra.
Qed.

Lemma fl_mono (x y : Q) : 0 <= x -> x <= y -> fl x <= fl y.
Proof.
  intros Hx Hxy.
  destruct (fl_nonneg_cases x Hx) as [[E ->]|[P ->]].
  - apply fl_nonneg. lra.
  - destruct (fl_nonneg_cases y) as [[E _]|[_ ->]]; [lra|exfalso; lra|].
    apply round53_mono; assumption.
Qed.

Lemma fl_comp (x y : Q) : 0 <= x -> x == y -> fl x == fl y.
Proof.
  intros Hx E. apply Qle_antisym; apply fl_mono; lra.
Qed.

(** ** [toFixed] and [parseFloat] *)

Lemma pow10_pos (f : nat) : 0 < pow10 f.
Proof.
  unfold pow10. change 0 with (inject_Z 0). rewrite <- Zlt_Qlt.
  apply Z.pow_pos_nonneg; lia.
Qed.

Lemma toFixed_nonneg (x : Q) (f : nat) :
  0 <= x -> toFixed x f = mkFixed (Qfloor (x * pow10 f + (1 # 2))) f.
Proof.
  intros Hx. unfold toFixed.
  assert (E : Qfloor (Qabs x * pow10 f + (1 # 2)) = Qfloor (x * pow10 f + (1 # 2))).
  { apply Qfloor_comp. rewrite Qabs_pos by assumption. reflexivity. }
  rewrite E.
  destruct (Qcompare_spec x 0) as [H|H|H]; try reflexivity.
  exfalso. lra.
Qed.

Lemma toFixed_places (x : Q) (f : nat) : places (toFixed x f) = f.
Proof. reflexivity. Qed.

Lemma toFixed_lower (x : Q) (f : nat) (k : Z) :
  0 <= x -> inject_Z k - (1 # 2) <= x * pow10 f -> (k <= digits (toFixed x f))%Z.
Proof.
  intros Hx H. rewrite toFixed_nonneg by assumption. cbn [digits].
  rewrite <- (Qfloor_Z k). apply Qfloor_resp_le. lra.
Qed.

Lemma toFixed_upper (x : Q) (f : nat) (k : Z) :
  0 <= x -> x * pow10 f < inject_Z k + (1 # 2) -> (digits (toFixed x f) <= k)%Z.
Proof.
  intros Hx H. rewrite toFixed_nonneg by assumption. cbn [digits].
  destruct (floor_bounds (x * pow10 f + (1 # 2))) as [Hl _].
  apply inject_Z_lt_succ. lra.
Qed.

Lemma toFixed_mono (x y : Q) (f : nat) :
  0 <= x -> x <= y -> (digits (toFixed x f) <= digits (toFixed y f))%Z.
Proof.
  intros Hx Hxy. rewrite !toFixed_nonneg by lra. cbn [digits].
  apply Qfloor_resp_le. pose proof (pow10_pos f). nra.
Qed.

Lemma toFixed_digits_nonneg (x : Q) (f : nat) :
  0 <= x -> (0 <= digits (toFixed x f))%Z.
Proof.
  intros Hx. apply toFixed_lower; [assumption|].
  pose proof (pow10_pos f). change (inject_Z 0) with 0. nra.
Qed.

(** The string of [toFixed] is within half a unit of the last place. *)
Lemma toFixed_near (x : Q) (f : nat) :
  0 <= x ->
  x * pow10 f - (1 # 2) <= inject_Z (digits (toFixed x f)) /\
  inject_Z (digits (toFixed x f)) <= x * pow10 f + (1 # 2).
Proof.
  intros Hx. rewrite toFixed_nonneg by assumption. cbn [digits].
  destruct (floor_bounds (x * pow10 f + (1 # 2))). split; lra.
Qed.

Lemma fixed_value_nonneg (k : Z) (f : nat) : (0 <= k)%Z -> 0 <= fixed_value (mkFixed k f).
Proof.
  intros Hk. unfold fixed_value. cbn [digits places].
  apply Qle_shift_div_l; [apply pow10_pos|].
  rewrite Qmult_0_l. change 0 with (inject_Z 0). rewrite <- Zle_Qle. assumption.
Qed.

Lemma fixed_value_mono (k1 k2 : Z) (f : nat) :
  (k1 <= k2)%Z -> fixed_value (mkFixed k1 f) <= fixed_value (mkFixed k2 f).
Proof.
  intros H. unfold fixed_value. cbn [digits places].
  apply Qmult_le_compat_r.
  - rewrite <- Zle_Qle. assumption.
  - apply Qlt_le_weak, Qinv_lt_0_compat, pow10_pos.
Qed.

Lemma parseFloat_mono (k1 k2 : Z) (f : nat) :
  (0 <= k1)%Z -> (k1 <= k2)%Z ->
  parseFloat (mkFixed k1 f) <= parseFloat (mkFixed k2 f).
Proof.
  intros H0 H. unfold parseFloat.
  apply fl_mono; [apply fixed_value_nonneg | apply fixed_value_mono]; assumption.
Qed.

Lemma parseFloat_nonneg (k : Z) (f : nat) : (0 <= k)%Z -> 0 <= parseFloat (mkFixed k f).
Proof. intros. apply fl_nonneg, fixed_value_nonneg. assumption. Qed.

(** A random value scaled into a range: [Math.random() * a + b] lies
    between the doubles [b] and [a + b]. *)
Lemma scaled_random_bounds (r a b : Q) :
  0 <= r -> r <= 1 -> 0 <= a -> 0 <= b ->
  0 <= fl b /\ fl b <= fadd (fmul r a) b /\ fadd (fmul r a) b <= fl (fl a + b).
Proof.
  intros Hr0 Hr1 Ha Hb. unfold fadd, fmul.
  assert (H1 : 0 <= fl (r * a)) by (apply fl_nonneg; nra).
  assert (H2 : fl (r * a) <= fl a) by (apply fl_mono; nra).
  split; [apply fl_nonneg; assumption|].
  split; apply fl_mono; lra.
Qed.

Lemma scaled_random_digits (r a b : Q) (f : nat) :
  0 <= r -> r <= 1 -> 0 <= a -> 0 <= b ->
  (digits (toFixed (fl b) f) <= digits (toFixed (fadd (fmul r a) b) f)
   <= digits (toFixed (fl (fl a + b)) f))%Z.
Proof.
  intros Hr0 Hr1 Ha Hb.
  destruct (scaled_random_bounds r a b Hr0 Hr1 Ha Hb) as (B0 & B1 & B2).
  split; apply toFixed_mono; lra.
Qed.

(** ** The data object of [generateRandomData] *)

Ltac closed_Qle := apply Qle_bool_iff; vm_compute; reflexivity.

Lemma decimal_between_bounds (x : Q) (lo hi : Z) (f : nat) :
  (0 <= lo)%Z -> decimal_between x lo hi f ->
  parseFloat (mkFixed lo f) <= x /\ x <= parseFloat (mkFixed hi f).
Proof.
  intros Hlo (k & Hk & ->). split; apply parseFloat_mono; lia.
Qed.

Lemma scaled_random_decimal (r a b : Q) (f : nat) (lo hi : Z) :
  0 <= r -> r < 1 -> 0 <= a -> 0 <= b ->
  digits (toFixed (fl b) f) = lo ->
  digits (toFixed (fl (fl a + b)) f) = hi ->
  decimal_between (parseFloat (toFixed (fadd (fmul r a) b) f)) lo hi f.
Proof.
  intros Hr0 Hr1 Ha Hb <- <-.
  exists (digits (toFixed (fadd (fmul r a) b) f)). split; [|reflexivity].
  apply scaled_random_digits; lra.
Qed.

Section Sample.

Variable w : World.
Hypothesis random_ok : random_in_unit_interval w.
Variables (e : Q) (i : nat).

Lemma sample_voltage : decimal_between (voltage (sample w e i)) 2250 2450 1.
Proof.
  destruct (random_ok i). unfold sample. cbn [voltage].
  apply scaled_random_decimal; try assumption; try closed_Qle;
    vm_compute; reflexivity.
Qed.

Lemma sample_current : decimal_between (current (sample w e i)) 10 1000 3.
Proof.
  destruct (random_ok (S (S i))). unfold sample. cbn [current].
  apply scaled_random_decimal; try assumption; try closed_Qle;
    vm_compute; reflexivity.
Qed.

Lemma sample_pf : decimal_between (pf (sample w e i)) 80 90 2.
Proof.
  destruct (random_ok (S i)). unfold sample. cbn [pf].
  apply scaled_random_decimal; try assumption; try closed_Qle;
    vm_compute; reflexivity.
Qed.

Lemma sample_frequency : decimal_between (frequency (sample w e i)) 498 499 1.
Proof.
  destruct (random_ok (S (S (S i)))). unfold sample. cbn [frequency].
  apply scaled_random_decimal; try assumption; try closed_Qle;
    vm_compute; reflexivity.
Qed.

Lemma sample_in_range : fields_in_range (sample w e i).
Proof.
  constructor.
  - apply sample_voltage.
  - apply sample_current.
  - apply sample_pf.
  - apply sample_frequency.
  - apply (decimal_between_bounds _ 2250 2450 1); [lia | apply sample_voltage].
  - apply (decimal_between_bounds _ 10 1000 3); [lia | apply sample_current].
  - apply (decimal_between_bounds _ 80 90 2); [lia | apply sample_pf].
  - apply (decimal_between_bounds _ 498 499 1); [lia | apply sample_frequency].
Qed.

End Sample.

(** ** The power field *)

Lemma fixed_value_scaled (k : Z) (f : nat) :
  fixed_value (mkFixed k f) * pow10 f == inject_Z k.
Proof.
  unfold fixed_value. cbn [digits places]. field.
  pose proof (pow10_pos f) as H. intros E. rewrite E in H. discriminate.
Qed.

(** Rounding to [f] decimals and reading the string back moves a
    non-negative double by at most half a unit of the last decimal and one
    relative rounding error. *)
Lemma parseFloat_toFixed_near (x : Q) (f : nat) :
  0 <= x ->
  let p := parseFloat (toFixed x f) in
  (x - (1 # 2) / pow10 f) * (1 - ulp_half) <= p /\
  p <= (x + (1 # 2) / pow10 f) * (1 + ulp_half).
Proof.
  intros Hx p. subst p. unfold parseFloat.
  change (toFixed x f) with (mkFixed (digits (toFixed x f)) f).
  pose proof (toFixed_digits_nonneg x f Hx) as Hn.
  destruct (toFixed_near x f Hx) as [Nl Nu].
  pose proof (fixed_value_scaled (digits (toFixed x f)) f) as Es.
  pose proof (fixed_value_nonneg (digits (toFixed x f)) f Hn) as Hv.
  destruct (fl_err _ Hv) as [Fl Fu].
  set (v := fixed_value (mkFixed (digits (toFixed x f)) f)) in *.
  set (n := inject_Z (digits (toFixed x f))) in *.
  pose proof (pow10_pos f) as Hp.
  assert (Ev : v == n / pow10 f).
  { rewrite <- Es. field. intros E. rewrite E in Hp. discriminate. }
  assert (Hlo : x - (1 # 2) / pow10 f <= v).
  { rewrite Ev. apply Qle_shift_div_l; [assumption|].
    assert (E2 : (x - (1 # 2) / pow10 f) * pow10 f == x * pow10 f - (1 # 2)).
    { field. intros E. rewrite E in Hp. discriminate. }
    rewrite E2. assumption. }
  assert (Hhi : v <= x + (1 # 2) / pow10 f).
  { rewrite Ev. apply Qle_shift_div_r; [assumption|].
    assert (E2 : (x + (1 # 2) / pow10 f) * pow10 f == x * pow10 f + (1 # 2)).
    { field. intros E. rewrite E in Hp. discriminate. }
    rewrite E2. assumption. }
  unfold ulp_half in *. split; nra.
Qed.

Lemma product_rounded (V C P : Q) :
  0 <= V -> V <= 245 -> 0 <= C -> C <= 1 -> 0 <= P -> P <= (91 # 100) ->
  let p := parseFloat (toFixed (fmul (fmul V C) P) 2) in
  V * C * P - power_tolerance <= p /\ p <= V * C * P + power_tolerance.
Proof.
  intros HV0 HV1 HC0 HC1 HP0 HP1 p.
  assert (HVC0 : 0 <= V * C) by nra.
  assert (HVC1 : V * C <= 245) by nra.
  destruct (fl_err (V * C) HVC0) as [Zl Zu].
  assert (Hz0 : 0 <= fl (V * C)) by (apply fl_nonneg; assumption).
  set (z := fl (V * C)) in *.
  assert (Hy0 : 0 <= z * P) by nra.
  destruct (fl_err (z * P) Hy0) as [Xl Xu].
  assert (Hx0 : 0 <= fl (z * P)) by (apply fl_nonneg; assumption).
  destruct (parseFloat_toFixed_near (fl (z * P)) 2 Hx0) as [Pl Pu].
  fold (fmul z P) in *. unfold z in *. fold (fmul V C) in *.
  fold p in Pl, Pu.
  set (x := fmul (fmul V C) P) in *. set (zz := fmul V C) in *.
  change ((1 # 2) / pow10 2) with (1 # 200) in *.
  assert (Hzz : zz <= 245 * (1 + ulp_half)) by (unfold ulp_half in *; nra).
  assert (Hy1 : zz * P <= 245 * (1 + ulp_half) * (91 # 100))
    by (unfold ulp_half in *; nra).
  assert (D1 : V * C * P - 245 * ulp_half * (91 # 100) <= zz * P).
  { assert (0 <= (zz - V * C * (1 - ulp_half)) * P) by nra.
    unfold ulp_half in *. nra. }
  assert (D2 : zz * P <= V * C * P + 245 * ulp_half * (91 # 100)).
  { assert (0 <= (V * C * (1 + ulp_half) - zz) * P) by nra.
    unfold ulp_half in *. nra. }
  set (y := zz * P) in *. set (q := V * C * P) in *.
  assert (Hq : 0 <= q /\ q <= 245 * (91 # 100)) by (unfold q; nra).
  unfold power_tolerance, ulp_half in *. split; lra.
Qed.

Lemma fields_in_range_product (d : pzem) :
  fields_in_range d ->
  power d = parseFloat (toFixed (fmul (fmul (voltage d) (current d)) (pf d)) 2) ->
  power_is_product d.
Proof.
  intros R E. constructor.
  - exact E.
  - rewrite E. eexists. reflexivity.
  - rewrite E.
    destruct (voltage_range d R) as [V0 V1], (current_range d R) as [C0 C1],
             (pf_range d R) as [P0 P1].
    assert (L1 : 0 <= lit 225) by closed_Qle.
    assert (L2 : lit 245 <= 245) by closed_Qle.
    assert (L3 : 0 <= lit (1 # 100)) by closed_Qle.
    assert (L4 : lit 1 <= 1) by closed_Qle.
    assert (L5 : 0 <= lit (8 # 10)) by closed_Qle.
    assert (L6 : lit (9 # 10) <= 91 # 100) by closed_Qle.
    apply product_rounded; lra.
Qed.

Lemma sample_power (w : World) (e : Q) (i : nat) :
  random_in_unit_interval w -> power_is_product (sample w e i).
Proof.
  intros Hr. apply fields_in_range_product.
  - apply sample_in_range. assumption.
  - reflexivity.
Qed.

(** ** The energy strings *)

(** A three-decimal string survives the passage through a double. *)
Lemma toFixed_parseFloat (k : Z) :
  (0 <= k <= energy_bound)%Z ->
  toFixed (parseFloat (mkFixed k 3)) 3 = mkFixed k 3.
Proof.
  intros [Hk0 Hk1]. unfold parseFloat.
  pose proof (fixed_value_nonneg k 3 Hk0) as Hv.
  pose proof (fixed_value_scaled k 3) as Es.
  destruct (fl_err _ Hv) as [Fl Fu].
  pose proof (fl_nonneg _ Hv) as Hf.
  set (v := fixed_value (mkFixed k 3)) in *.
  change (pow10 3) with 1000 in Es.
  assert (Hb : inject_Z k <= inject_Z energy_bound) by (rewrite <- Zle_Qle; assumption).
  assert (H0 : 0 <= inject_Z k) by (change 0 with (inject_Z 0); rewrite <- Zle_Qle; assumption).
  change (inject_Z energy_bound) with 1000000000000000 in Hb.
  change (toFixed (fl v) 3) with (mkFixed (digits (toFixed (fl v) 3)) 3).
  f_equal. apply Z.le_antisymm.
  - apply toFixed_upper; [assumption|]. change (pow10 3) with 1000.
    unfold ulp_half in *. lra.
  - apply toFixed_lower; [assumption|]. change (pow10 3) with 1000.
    unfold ulp_half in *. lra.
Qed.

Lemma energy_step_bounds (et : number) :
  inject_Z (step_digits et) * (1 # 1000) * (1 - ulp_half) <= energy_step et /\
  energy_step et <= inject_Z (step_digits et) * (1 # 1000) * (1 + ulp_half).
Proof.
  unfold energy_step, step_digits.
  destruct (strict_eq et 1); split; closed_Qle.
Qed.

Lemma step_digits_cases (et : number) :
  (strict_eq et 1 = true /\ step_digits et = 3%Z) \/
  (strict_eq et 1 = false /\ step_digits et = 500%Z).
Proof. unfold step_digits. destruct (strict_eq et 1); auto. Qed.

(** One turn of the loop adds exactly the step to the energy string. *)
Lemma next_energy_digits (et : number) (k : Z) :
  (0 <= k)%Z -> (k + step_digits et <= energy_bound)%Z ->
  next_energy et (mkFixed k 3) = mkFixed (k + step_digits et) 3.
Proof.
  intros Hk0 Hk1. unfold next_energy, fadd, parseFloat.
  pose proof (fixed_value_nonneg k 3 Hk0) as Hv.
  pose proof (fixed_value_scaled k 3) as Es.
  destruct (fl_err _ Hv) as [Fl Fu].
  pose proof (fl_nonneg _ Hv) as Hf.
  set (v := fixed_value (mkFixed k 3)) in *.
  change (pow10 3) with 1000 in Es.
  destruct (energy_step_bounds et) as [Sl Su].
  assert (Hs : (3 <= step_digits et <= 500)%Z)
    by (destruct (step_digits_cases et) as [[_ ->]|[_ ->]]; lia).
  assert (Hs1 : 3 <= inject_Z (step_digits et))
    by (change 3 with (inject_Z 3); rewrite <- Zle_Qle; lia).
  set (s := inject_Z (step_digits et)) in *.
  set (c := energy_step et) in *.
  assert (Hc : 0 <= c) by (unfold ulp_half in *; lra).
  assert (Hsum : 0 <= fl v + c) by lra.
  destruct (fl_err _ Hsum) as [Xl Xu].
  pose proof (fl_nonneg _ Hsum) as Hx.
  assert (Hb : inject_Z (k + step_digits et) <= inject_Z energy_bound)
    by (rewrite <- Zle_Qle; assumption).
  rewrite inject_Z_plus in Hb. fold s in Hb.
  change (inject_Z energy_bound) with 1000000000000000 in Hb.
  assert (H0 : 0 <= inject_Z k)
    by (change 0 with (inject_Z 0); rewrite <- Zle_Qle; assumption).
  change (toFixed (fl (fl v + c)) 3)
    with (mkFixed (digits (toFixed (fl (fl v + c)) 3)) 3).
  f_equal. apply Z.le_antisymm.
  - apply toFixed_upper; [assumption|]. change (pow10 3) with 1000.
    rewrite inject_Z_plus. fold s. clearbody v s c.
    set (ik := inject_Z k) in *. clearbody ik. unfold ulp_half in *. lra.
  - apply toFixed_lower; [assumption|]. change (pow10 3) with 1000.
    rewrite inject_Z_plus. fold s. clearbody v s c.
    set (ik := inject_Z k) in *. clearbody ik. unfold ulp_half in *. lra.
Qed.

Lemma next_energy_places (et : number) (e : fixed) : places (next_energy et e) = 3%nat.
Proof. reflexivity. Qed.

(** The energy field of a data object made from a three-decimal string. *)
Lemma sample_energy (w : World) (k : Z) (i : nat) :
  (0 <= k <= energy_bound)%Z ->
  energy (sample w (parseFloat (mkFixed k 3)) i) = parseFloat (mkFixed k 3).
Proof.
  intros Hk. unfold sample. cbn [energy]. rewrite toFixed_parseFloat by assumption.
  reflexivity.
Qed.

(** ** Dates in a time zone of fixed offset *)

Local Open Scope Z_scope.

Lemma TimeWithinDay_range (t : Z) : 0 <= TimeWithinDay t < msPerDay.
Proof. unfold TimeWithinDay, msPerDay. apply Z.mod_pos_bound. lia. Qed.

Lemma TimeWithinDay_MakeDate (day t : Z) :
  TimeWithinDay (MakeDate day (TimeWithinDay t)) = TimeWithinDay t.
Proof.
  unfold MakeDate, TimeWithinDay, msPerDay.
  rewrite Z.add_comm, Z.mod_add by lia. apply Z.mod_mod. lia.
Qed.

Lemma HourFromTime_within_day (t : Z) :
  HourFromTime (TimeWithinDay t) = HourFromTime t.
Proof.
  unfold HourFromTime, TimeWithinDay, msPerHour, msPerDay.
  Z.to_euclidean_division_equations. lia.
Qed.

Lemma MinFromTime_within_day (t : Z) :
  MinFromTime (TimeWithinDay t) = MinFromTime t.
Proof.
  unfold MinFromTime, TimeWithinDay, msPerMinute, msPerDay.
  Z.to_euclidean_division_equations. lia.
Qed.

Lemma SecFromTime_within_day (t : Z) :
  SecFromTime (TimeWithinDay t) = SecFromTime t.
Proof.
  unfold SecFromTime, TimeWithinDay, msPerSecond, msPerDay.
  Z.to_euclidean_division_equations. lia.
Qed.

Lemma HourFromTime_range (t : Z) : 0 <= HourFromTime t < 24.
Proof. unfold HourFromTime. apply Z.mod_pos_bound. lia. Qed.

Lemma MinFromTime_range (t : Z) : 0 <= MinFromTime t < 60.
Proof. unfold MinFromTime. apply Z.mod_pos_bound. lia. Qed.

Lemma SecFromTime_range (t : Z) : 0 <= SecFromTime t < 60.
Proof. unfold SecFromTime. apply Z.mod_pos_bound. lia. Qed.

(** The time string is a function of the local time of day. *)
Lemma formatTime_time_of_day (tz : Z -> bool -> Z) (d1 d2 : Z) :
  TimeWithinDay (LocalTime tz d1) = TimeWithinDay (LocalTime tz d2) ->
  formatTime tz d1 = formatTime tz d2.
Proof.
  intros E. unfold formatTime, getHours, getMinutes, getSeconds.
  rewrite <- (HourFromTime_within_day (LocalTime tz d1)).
  rewrite <- (MinFromTime_within_day (LocalTime tz d1)).
  rewrite <- (SecFromTime_within_day (LocalTime tz d1)).
  rewrite E.
  rewrite HourFromTime_within_day, MinFromTime_within_day, SecFromTime_within_day.
  reflexivity.
Qed.

Lemma two_digits_length (n : Z) :
  0 <= n < 60 -> String.length (two_digits n) = 2%nat.
Proof.
  intros [H0 H1]. destruct n as [|p|p]; [reflexivity| |lia].
  do 6 (try (destruct p as [p|p|]; [| |reflexivity])); try reflexivity; lia.
Qed.

Lemma twelve_hour_range (hours : Z) : 1 <= twelve_hour hours <= 12.
Proof.
  unfold twelve_hour. pose proof (Z.mod_pos_bound hours 12 ltac:(lia)).
  destruct (Z.eqb_spec (hours mod 12) 0); lia.
Qed.

(** [formatTime] writes the local time of day in twelve-hour form. *)
Lemma formatTime_shape (tz : Z -> bool -> Z) (d : Z) :
  twelve_hour_format (formatTime tz d)
    (getHours tz d) (getMinutes tz d) (getSeconds tz d).
Proof.
  unfold twelve_hour_format. repeat split.
  - apply twelve_hour_range.
  - apply twelve_hour_range.
  - intros ->. reflexivity.
  - apply two_digits_length, MinFromTime_range.
  - apply two_digits_length, SecFromTime_range.
Qed.

Section FixedOffset.

Variable tz : Z -> bool -> Z.
Variable z : Z.
Hypothesis tz_fixed : fixed_offset tz z.

Lemma LocalTime_fixed (t : Z) : LocalTime tz t = t + z.
Proof. unfold LocalTime. rewrite tz_fixed. reflexivity. Qed.

Lemma UTC_fixed (t : Z) : UTC tz t = t - z.
Proof. unfold UTC. rewrite tz_fixed. reflexivity. Qed.

Lemma setDate_time_of_day (d date : Z) :
  TimeWithinDay (LocalTime tz (setDate tz d date)) = TimeWithinDay (LocalTime tz d).
Proof.
  unfold setDate. rewrite LocalTime_fixed, UTC_fixed.
  rewrite Z.sub_add. apply TimeWithinDay_MakeDate.
Qed.

Lemma setMonth_time_of_day (d month : Z) :
  TimeWithinDay (LocalTime tz (setMonth tz d month)) = TimeWithinDay (LocalTime tz d).
Proof.
  unfold setMonth. rewrite LocalTime_fixed, UTC_fixed.
  rewrite Z.sub_add. apply TimeWithinDay_MakeDate.
Qed.

Lemma next_day_time_of_day (d : Z) :
  TimeWithinDay (LocalTime tz (next_day tz d)) = TimeWithinDay (LocalTime tz d).
Proof. unfold next_day. apply setDate_time_of_day. Qed.

Lemma two_months_before_time_of_day (today d : Z) :
  TimeWithinDay (LocalTime tz (two_months_before tz today d))
  = TimeWithinDay (LocalTime tz d).
Proof. unfold two_months_before. apply setMonth_time_of_day. Qed.

End FixedOffset.

Local Close Scope Z_scope.

(** ** The script computes the series *)

Lemma generateRandomData_eq (w : World) (energy : Q) (st : State) :
  generateRandomData w energy st =
  (Returned (sample w energy (randoms_drawn st)),
   mkState (4 + randoms_drawn st) (clock_reads st) (collection st) (next_id st)
           (Console (GeneratedRandomData (sample w energy (randoms_drawn st)))
              :: trace st)).
Proof. reflexivity. Qed.

Lemma series_S (w : World) (et : number) (n : nat) (d : Z) (e : fixed)
    (ri ci : nat) :
  series w et (S n) d e ri ci =
  mkRecord (sample w (parseFloat e) ri) (split_T_0 (toISOString d))
           (formatTime (LocalTZA w) d) (clock w ci)
    :: series w et n (next_day (LocalTZA w) d) (next_energy et e) (4 + ri) (S ci).
Proof. reflexivity. Qed.

Opaque sample formatTime toISOString split_T_0 next_day next_energy.

Lemma nth_day_S (tz : Z -> bool -> Z) (d : Z) (i : nat) :
  nth_day tz d (S i) = next_day tz (nth_day tz d i).
Proof. reflexivity. Qed.

Lemma nth_day_shift (tz : Z -> bool -> Z) (d : Z) (i : nat) :
  nth_day tz d (S i) = nth_day tz (next_day tz d) i.
Proof.
  induction i as [|i IH]; [reflexivity|].
  rewrite nth_day_S, IH. reflexivity.
Qed.

Lemma nth_energy_S (et : number) (e : fixed) (i : nat) :
  nth_energy et e (S i) = next_energy et (nth_energy et e i).
Proof. reflexivity. Qed.

Lemma nth_energy_shift (et : number) (e : fixed) (i : nat) :
  nth_energy et e (S i) = nth_energy et (next_energy et e) i.
Proof.
  induction i as [|i IH]; [reflexivity|].
  rewrite nth_energy_S, IH. reflexivity.
Qed.

(** The record of turn [n] of the loop. *)
Lemma series_app_last (w : World) (et : number) (n : nat) :
  forall d e ri ci,
    series w et (S n) d e ri ci =
    series w et n d e ri ci ++
      [mkRecord (sample w (parseFloat (nth_energy et e n)) (4 * n + ri))
                (split_T_0 (toISOString (nth_day (LocalTZA w) d n)))
                (formatTime (LocalTZA w) (nth_day (LocalTZA w) d n))
                (clock w (n + ci))].
Proof.
  induction n as [|n IH]; intros d e ri ci.
  - reflexivity.
  - rewrite (series_S w et (S n)), IH, (series_S w et n).
    rewrite <- nth_day_shift, <- nth_energy_shift.
    replace (4 * n + (4 + ri))%nat with (4 * S n + ri)%nat by lia.
    replace (n + S ci)%nat with (S n + ci)%nat by lia.
    reflexivity.
Qed.

Lemma series_length (w : World) (et : number) (n : nat) :
  forall d e ri ci, List.length (series w et n d e ri ci) = n.
Proof.
  induction n as [|n IH]; intros; cbn [series List.length]; [|rewrite IH]; reflexivity.
Qed.

(** What one run of the loop leaves behind. *)
Record loop_result (w : World) (et : number) (today d : Z) (e : fixed)
    (acc : list record) (st : State) (recs : list record) (st' : State) (n : nat)
    : Prop := {
  loop_records :
    recs = acc ++ series w et n d e (randoms_drawn st) (clock_reads st);
  loop_days_kept :
    forall i, (i < n)%nat -> (nth_day (LocalTZA w) d i <= today)%Z;
  loop_day_left : (today < nth_day (LocalTZA w) d n)%Z;
  loop_randoms : randoms_drawn st' = (4 * n + randoms_drawn st)%nat;
  loop_clock : clock_reads st' = (n + clock_reads st)%nat;
  loop_collection : collection st' = collection st;
  loop_next_id : next_id st' = next_id st;
  loop_trace :
    exists new, trace st' = new ++ trace st
                /\ forallb is_generation_event new = true
}.

Lemma daily_loop_S (w : World) (et : number) (today : Z) (fuel : nat)
    (d : Z) (e : fixed) (acc : list record) (st : State) :
  daily_loop w (S fuel) et today d e acc st =
  if (d <=? today)%Z then
    let r := mkRecord (sample w (parseFloat e) (randoms_drawn st))
                      (split_T_0 (toISOString d)) (formatTime (LocalTZA w) d)
                      (clock w (clock_reads st)) in
    daily_loop w fuel et today (next_day (LocalTZA w) d) (next_energy et e)
      (acc ++ [r])
      (mkState (4 + randoms_drawn st) (S (clock_reads st)) (collection st)
               (next_id st)
               (Console (PreparedRecord r)
                  :: Console (GeneratedRandomData
                                (sample w (parseFloat e) (randoms_drawn st)))
                  :: trace st))
  else (Returned acc, st).
Proof.
  cbn [daily_loop]. destruct (d <=? today)%Z; [|reflexivity].
  unfold bind at 1. rewrite generateRandomData_eq. reflexivity.
Qed.

Lemma daily_loop_spec (w : World) (et : number) (today : Z) (fuel : nat) :
  forall d e acc st out st',
    daily_loop w fuel et today d e acc st = (out, st') ->
    match out with
    | Returned recs =>
        exists n, (n < fuel)%nat /\ loop_result w et today d e acc st recs st' n
    | Thrown _ => False
    | OutOfFuel => True
    end.
Proof.
  induction fuel as [|fuel IH]; intros d e acc st out st' H.
  - cbn in H. injection H as <- <-. exact I.
  - rewrite daily_loop_S in H.
    destruct (Z.leb_spec d today) as [Hd|Hd].
    + cbv zeta in H. apply IH in H. destruct out as [recs| |]; try exact H.
      destruct H as (n & Hn & R). exists (S n). split; [lia|].
      destruct R as [R1 R2 R3 R4 R5 R6 R7 (new & R8 & R9)].
      cbn [randoms_drawn clock_reads collection next_id trace] in *.
      constructor.
      * rewrite R1, <- List.app_assoc, series_S. reflexivity.
      * intros [|i] Hi; [exact Hd | rewrite nth_day_shift; apply R2; lia].
      * rewrite nth_day_shift. exact R3.
      * rewrite R4. lia.
      * rewrite R5. lia.
      * exact R6.
      * exact R7.
      * exists (new ++ [Console (PreparedRecord
                   (mkRecord (sample w (parseFloat e) (randoms_drawn st))
                      (split_T_0 (toISOString d)) (formatTime (LocalTZA w) d)
                      (clock w (clock_reads st))));
                 Console (GeneratedRandomData
                            (sample w (parseFloat e) (randoms_drawn st)))]).
        split.
        { rewrite R8, <- List.app_assoc. reflexivity. }
        rewrite forallb_app, R9. reflexivity.
    + injection H as <- <-. exists 0%nat. split; [lia|].
      constructor; try reflexivity.
      * cbn [series]. rewrite List.app_nil_r. reflexivity.
      * intros i Hi. lia.
      * assumption.
      * exists []. split; reflexivity.
Qed.

Lemma initialEnergy_eq (w : World) (et : number) (st : State) :
  initialEnergy w et st =
  (Returned (first_energy w et (randoms_drawn st)),
   mkState (S (randoms_drawn st)) (clock_reads st) (collection st) (next_id st)
           (trace st)).
Proof.
  unfold initialEnergy, first_energy, bind, Math_random.
  destruct (strict_eq et 1); reflexivity.
Qed.

Lemma first_energy_eta (w : World) (et : number) (i : nat) :
  first_energy w et i = mkFixed (digits (first_energy w et i)) 3.
Proof. unfold first_energy. destruct (strict_eq et 1); reflexivity. Qed.

(** The starting energy: 0.500 to 1.000 for type 1, 150.000 to 250.000
    otherwise. *)
Lemma first_energy_digits (w : World) (et : number) (i : nat) :
  random_in_unit_interval w ->
  (if strict_eq et 1
   then 500 <= digits (first_energy w et i) <= 1000
   else 150000 <= digits (first_energy w et i) <= 250000)%Z.
Proof.
  intros Hr. destruct (Hr i) as [H0 H1]. unfold first_energy.
  destruct (strict_eq et 1).
  - assert (E1 : digits (toFixed (fl (lit (1 # 2))) 3) = 500%Z) by (vm_compute; reflexivity).
    assert (E2 : digits (toFixed (fl (fl (fsub (lit 1) (lit (1 # 2))) + lit (1 # 2))) 3)
                 = 1000%Z) by (vm_compute; reflexivity).
    rewrite <- E1, <- E2.
    apply scaled_random_digits; try lra; closed_Qle.
  - assert (E1 : digits (toFixed (fl (lit 150)) 3) = 150000%Z) by (vm_compute; reflexivity).
    assert (E2 : digits (toFixed (fl (fl (fsub (lit 250) (lit 150)) + lit 150)) 3)
                 = 250000%Z) by (vm_compute; reflexivity).
    rewrite <- E1, <- E2.
    apply scaled_random_digits; try lra; closed_Qle.
Qed.

Lemma first_energy_bounded (w : World) (et : number) (i : nat) :
  random_in_unit_interval w ->
  (500 <= digits (first_energy w et i) <= 250000)%Z.
Proof.
  intros Hr. pose proof (first_energy_digits w et i Hr) as H.
  destruct (strict_eq et 1); lia.
Qed.

Opaque first_energy two_months_before.

Lemma prepare_series_eq (w : World) (fuel : nat) (et : number) (st : State) :
  prepare_series w fuel et st =
  daily_loop w fuel et (today_date w (clock_reads st))
    (start_date w (clock_reads st)) (first_energy w et (randoms_drawn st)) []
    (mkState (S (randoms_drawn st)) (2 + clock_reads st) (collection st)
             (next_id st)
             (Console (GeneratingDataFromTo
                         (split_T_0 (toISOString (start_date w (clock_reads st))))
                         (split_T_0 (toISOString (today_date w (clock_reads st)))))
                :: trace st)).
Proof.
  unfold prepare_series. unfold bind at 1, new_Date at 1. unfold bind at 1, new_Date at 1.
  cbn [randoms_drawn clock_reads collection next_id trace].
  unfold bind at 1. rewrite initialEnergy_eq.
  reflexivity.
Qed.

(** What the generation phase leaves behind: the series of [n] days, the
    collection untouched, and console lines only. *)
Record series_result (w : World) (et : number) (st : State)
    (recs : list record) (st' : State) (n : nat) : Prop := {
  series_records :
    recs = series w et n (start_date w (clock_reads st))
             (first_energy w et (randoms_drawn st))
             (S (randoms_drawn st)) (2 + clock_reads st);
  series_days_kept :
    forall i, (i < n)%nat ->
      (nth_day (LocalTZA w) (start_date w (clock_reads st)) i
       <= today_date w (clock_reads st))%Z;
  series_day_left :
    (today_date w (clock_reads st)
     < nth_day (LocalTZA w) (start_date w (clock_reads st)) n)%Z;
  series_collection : collection st' = collection st;
  series_next_id : next_id st' = next_id st;
  series_trace :
    exists new, trace st' = new ++ trace st
                /\ forallb is_generation_event new = true
}.

Lemma prepare_series_spec (w : World) (fuel : nat) (et : number) (st : State) :
  forall out st',
    prepare_series w fuel et st = (out, st') ->
    match out with
    | Returned recs => exists n, (n < fuel)%nat /\ series_result w et st recs st' n
    | Thrown _ => False
    | OutOfFuel => True
    end.
Proof.
  intros out st' H. rewrite prepare_series_eq in H.
  apply daily_loop_spec in H. destruct out as [recs| |]; try exact H.
  destruct H as (n & Hn & [R1 R2 R3 R4 R5 R6 R7 (new & R8 & R9)]).
  cbn [randoms_drawn clock_reads collection next_id trace] in *.
  exists n. split; [assumption|]. constructor; try assumption.
  eexists. split.
  - rewrite R8. change (?a :: ?l) with ([a] ++ l) at 1.
    rewrite List.app_assoc. reflexivity.
  - rewrite forallb_app, R9. reflexivity.
Qed.

(** The record of turn [i]. *)
Lemma series_nth (w : World) (et : number) (n : nat) :
  forall d e ri ci i,
    (i < n)%nat ->
    nth_error (series w et n d e ri ci) i =
    Some (mkRecord (sample w (parseFloat (nth_energy et e i)) (4 * i + ri))
                   (split_T_0 (toISOString (nth_day (LocalTZA w) d i)))
                   (formatTime (LocalTZA w) (nth_day (LocalTZA w) d i))
                   (clock w (i + ci))).
Proof.
  induction n as [|n IH]; intros d e ri ci i Hi; [lia|].
  rewrite series_S. destruct i as [|i].
  - reflexivity.
  - cbn [nth_error]. rewrite IH by lia.
    rewrite <- nth_day_shift, <- nth_energy_shift.
    replace (4 * i + (4 + ri))%nat with (4 * S i + ri)%nat by lia.
    replace (i + S ci)%nat with (S i + ci)%nat by lia.
    reflexivity.
Qed.

Lemma series_nth_inv (w : World) (et : number) (n : nat) (d : Z) (e : fixed)
    (ri ci i : nat) (r : record) :
  nth_error (series w et n d e ri ci) i = Some r ->
  (i < n)%nat /\
  r = mkRecord (sample w (parseFloat (nth_energy et e i)) (4 * i + ri))
               (split_T_0 (toISOString (nth_day (LocalTZA w) d i)))
               (formatTime (LocalTZA w) (nth_day (LocalTZA w) d i))
               (clock w (i + ci)).
Proof.
  intros H.
  assert (Hi : (i < n)%nat).
  { rewrite <- (series_length w et n d e ri ci). apply nth_error_Some. congruence. }
  split; [assumption|]. rewrite series_nth in H by assumption. congruence.
Qed.

Lemma series_In (w : World) (et : number) (n : nat) (d : Z) (e : fixed)
    (ri ci : nat) (r : record) :
  In r (series w et n d e ri ci) ->
  exists i, (i < n)%nat /\
    r = mkRecord (sample w (parseFloat (nth_energy et e i)) (4 * i + ri))
                 (split_T_0 (toISOString (nth_day (LocalTZA w) d i)))
                 (formatTime (LocalTZA w) (nth_day (LocalTZA w) d i))
                 (clock w (i + ci)).
Proof.
  intros H. apply In_nth_error in H. destruct H as (i & H).
  exists i. eapply series_nth_inv. exact H.
Qed.

Lemma demo_randoms_ok : random_in_unit_interval demo_world.
Proof.
  intros n. cbn [random_values demo_world]. unfold demo_randoms.
  destruct (Nat.even n); split; (discriminate || reflexivity).
Defined.

Lemma demo_prepare_series :
  prepare_series demo_world 100 (Int 1) (initial_state demo_world) =
  (Returned demo_records,
   snd (prepare_series demo_world 100 (Int 1) (initial_state demo_world))).
Proof. vm_compute. reflexivity. Defined.

(** ** Claims about the generated records *)

(** C4. Every generated record has its randomised fields in their closed
    ranges: voltage in [225.0, 245.0], current in [0.01, 1.0], power factor
    in [0.8, 0.9] and frequency in [49.8, 49.9].  [generateRandomData]
    always returns such an object, and every record of the series that the
    script prepares carries one. *)
Theorem C4_fields_in_range (w : World) :
  random_in_unit_interval w ->
  (forall energy st, exists d st',
      generateRandomData w energy st = (Returned d, st') /\ fields_in_range d) /\
  (forall fuel energyType st recs st',
      prepare_series w fuel energyType st = (Returned recs, st') ->
      Forall (fun r => fields_in_range (data r)) recs).
Proof.
  intros Hr. split.
  - intros energy st. rewrite generateRandomData_eq.
    do 2 eexists. split; [reflexivity|]. apply sample_in_range. assumption.
  - intros fuel et st recs st' H.
    apply prepare_series_spec in H. destruct H as (n & _ & R).
    apply Forall_forall. intros r Hin.
    rewrite (series_records _ _ _ _ _ _ R) in Hin.
    apply series_In in Hin. destruct Hin as (i & _ & ->).
    cbn [data]. apply sample_in_range. assumption.
Qed.

Lemma C4_fields_in_range_witness :
  Forall (fun r => fields_in_range (data r)) demo_records.
Proof.
  exact (proj2 (C4_fields_in_range demo_world demo_randoms_ok)
           100%nat (Int 1) (initial_state demo_world) demo_records _
           demo_prepare_series).
Defined.

(** C5. In every generated record the power is the product of the
    voltage, the current and the power factor of the same record, rounded
    to two decimals. *)
Theorem C5_power_is_product (w : World) :
  random_in_unit_interval w ->
  (forall energy st, exists d st',
      generateRandomData w energy st = (Returned d, st') /\ power_is_product d) /\
  (forall fuel energyType st recs st',
      prepare_series w fuel energyType st = (Returned recs, st') ->
      Forall (fun r => power_is_product (data r)) recs).
Proof.
  intros Hr. split.
  - intros energy st. rewrite generateRandomData_eq.
    do 2 eexists. split; [reflexivity|]. apply sample_power. assumption.
  - intros fuel et st recs st' H.
    apply prepare_series_spec in H. destruct H as (n & _ & R).
    apply Forall_forall. intros r Hin.
    rewrite (series_records _ _ _ _ _ _ R) in Hin.
    apply series_In in Hin. destruct Hin as (i & _ & ->).
    cbn [data]. apply sample_power. assumption.
Qed.

Lemma C5_power_is_product_witness :
  Forall (fun r => power_is_product (data r)) demo_records.
Proof.
  exact (proj2 (C5_power_is_product demo_world demo_randoms_ok)
           100%nat (Int 1) (initial_state demo_world) demo_records _
           demo_prepare_series).
Defined.

(** ** The energy of the series *)

Lemma nth_energy_digits (et : number) (k : Z) (i : nat) :
  (0 <= k)%Z -> (k + Z.of_nat i * step_digits et <= energy_bound)%Z ->
  nth_energy et (mkFixed k 3) i = mkFixed (k + Z.of_nat i * step_digits et) 3.
Proof.
  intros Hk. induction i as [|i IH]; intros Hb.
  - change (nth_energy et (mkFixed k 3) 0) with (mkFixed k 3). f_equal.
    change (Z.of_nat 0) with 0%Z. lia.
  - assert (Hs : (3 <= step_digits et <= 500)%Z)
      by (destruct (step_digits_cases et) as [[_ ->]|[_ ->]]; lia).
    rewrite nth_energy_S, IH by nia.
    rewrite next_energy_digits by nia. f_equal. lia.
Qed.

(** Within the bound every energy string of the series is exact. *)
Lemma series_energy (w : World) (et : number) (n : nat) (d : Z) (k : Z)
    (ri ci i : nat) (r : record) :
  (500 <= k <= 250000)%Z -> (Z.of_nat n <= series_bound)%Z ->
  nth_error (series w et n d (mkFixed k 3) ri ci) i = Some r ->
  (Z.of_nat i < Z.of_nat n)%Z /\
  energy (data r) = parseFloat (mkFixed (k + Z.of_nat i * step_digits et) 3).
Proof.
  intros Hk Hn H. apply series_nth_inv in H. destruct H as [Hi ->].
  split; [lia|]. cbn [data].
  assert (Hs : (3 <= step_digits et <= 500)%Z)
    by (destruct (step_digits_cases et) as [[_ ->]|[_ ->]]; lia).
  assert (Hb : (k + Z.of_nat i * step_digits et <= energy_bound)%Z)
    by (unfold energy_bound, series_bound in *; nia).
  rewrite nth_energy_digits by lia.
  apply sample_energy. nia.
Qed.

Lemma energy_difference (k s : Z) :
  (0 <= k)%Z -> (0 <= s)%Z -> (k + s <= energy_bound)%Z ->
  toFixed (parseFloat (mkFixed (k + s) 3) - parseFloat (mkFixed k 3)) 3 = mkFixed s 3.
Proof.
  intros Hk Hs Hb.
  assert (Hm : parseFloat (mkFixed k 3) <= parseFloat (mkFixed (k + s) 3))
    by (apply parseFloat_mono; lia).
  unfold parseFloat in *.
  pose proof (fixed_value_nonneg k 3 Hk) as Hv1.
  pose proof (fixed_value_nonneg (k + s) 3 ltac:(lia)) as Hv2.
  pose proof (fixed_value_scaled k 3) as Es1.
  pose proof (fixed_value_scaled (k + s) 3) as Es2.
  destruct (fl_err _ Hv1) as [F1l F1u]. destruct (fl_err _ Hv2) as [F2l F2u].
  change (pow10 3) with 1000 in Es1, Es2.
  rewrite inject_Z_plus in Es2.
  assert (H0 : 0 <= inject_Z k)
    by (change 0 with (inject_Z 0); rewrite <- Zle_Qle; assumption).
  assert (H1 : 0 <= inject_Z s)
    by (change 0 with (inject_Z 0); rewrite <- Zle_Qle; assumption).
  assert (H2 : inject_Z k + inject_Z s <= inject_Z energy_bound)
    by (rewrite <- inject_Z_plus, <- Zle_Qle; assumption).
  change (inject_Z energy_bound) with 1000000000000000 in H2.
  set (a := fl (fixed_value (mkFixed k 3))) in *.
  set (b := fl (fixed_value (mkFixed (k + s) 3))) in *.
  set (v1 := fixed_value (mkFixed k 3)) in *.
  set (v2 := fixed_value (mkFixed (k + s) 3)) in *.
  set (ik := inject_Z k) in *. set (js := inject_Z s) in *.
  change (toFixed (b - a) 3) with (mkFixed (digits (toFixed (b - a) 3)) 3).
  f_equal. apply Z.le_antisymm.
  - apply toFixed_upper; [lra|]. change (pow10 3) with 1000. fold js.
    clearbody a b v1 v2 ik js. unfold ulp_half in *. lra.
  - apply toFixed_lower; [lra|]. change (pow10 3) with 1000. fold js.
    clearbody a b v1 v2 ik js. unfold ulp_half in *. lra.
Qed.

(** C3. In every generated series the energy is non-decreasing in date
    order and advances by the step of the mode, 0.003 for energy type 1
    (normal) and 0.5 otherwise (greater), every value being rounded to
    three decimals. *)
Theorem C3_energy_steps (w : World) (fuel : nat) (energyType : number)
    (st st' : State) (recs : list record) :
  random_in_unit_interval w ->
  (Z.of_nat (List.length recs) <= series_bound)%Z ->
  prepare_series w fuel energyType st = (Returned recs, st') ->
  let step := if strict_eq energyType 1 then 3%Z else 500%Z in
  exists k0 : Z,
    arithmetic_energies recs k0 step /\
    nondecreasing_energies recs /\
    energy_differences recs step.
Proof.
  intros Hr Hlen H step. change step with (step_digits energyType). clear step.
  apply prepare_series_spec in H. destruct H as (n & _ & R).
  pose proof (series_records _ _ _ _ _ _ R) as E.
  pose proof (first_energy_bounded w energyType (randoms_drawn st) Hr) as Hk.
  rewrite first_energy_eta in E.
  set (k0 := digits (first_energy w energyType (randoms_drawn st))) in *.
  assert (Hn : (Z.of_nat n <= series_bound)%Z).
  { rewrite E, series_length in Hlen. exact Hlen. }
  assert (Hs : (3 <= step_digits energyType <= 500)%Z)
    by (destruct (step_digits_cases energyType) as [[_ ->]|[_ ->]]; lia).
  exists k0. rewrite E. repeat split.
  - intros i r Hi. eapply series_energy; eassumption.
  - intros i r r' Hi Hi'.
    destruct (series_energy _ _ _ _ _ _ _ _ _ Hk Hn Hi) as [_ ->].
    destruct (series_energy _ _ _ _ _ _ _ _ _ Hk Hn Hi') as [_ ->].
    apply parseFloat_mono; nia.
  - intros i r r' Hi Hi'.
    destruct (series_energy _ _ _ _ _ _ _ _ _ Hk Hn Hi) as [_ ->].
    destruct (series_energy _ _ _ _ _ _ _ _ _ Hk Hn Hi') as [Hlt ->].
    replace (k0 + Z.of_nat (S i) * step_digits energyType)%Z
      with (k0 + Z.of_nat i * step_digits energyType + step_digits energyType)%Z
      by lia.
    apply energy_difference; unfold energy_bound, series_bound in *; nia.
Qed.

Lemma C3_energy_steps_witness :
  exists k0 : Z,
    arithmetic_energies demo_records k0 3 /\
    nondecreasing_energies demo_records /\
    energy_differences demo_records 3.
Proof.
  refine (C3_energy_steps demo_world 100 (Int 1) (initial_state demo_world) _
            demo_records demo_randoms_ok _ demo_prepare_series).
  vm_compute. discriminate.
Defined.

Lemma first_energy_range (w : World) (et : number) (i : nat) :
  random_in_unit_interval w -> initial_energy_range et (first_energy w et i).
Proof.
  intros Hr. pose proof (first_energy_digits w et i Hr) as H.
  pose proof (first_energy_eta w et i) as Eta.
  remember (digits (first_energy w et i)) as k eqn:Ek. clear Ek.
  rewrite Eta. clear Eta.
  unfold initial_energy_range. cbn [places digits]. split; [reflexivity|].
  destruct (strict_eq et 1).
  - split; [assumption|].
    assert (E1 : parseFloat (mkFixed 500 3) = lit (1 # 2)) by (vm_compute; reflexivity).
    assert (E2 : parseFloat (mkFixed 1000 3) = lit 1) by (vm_compute; reflexivity).
    rewrite <- E1, <- E2. split; apply parseFloat_mono; lia.
  - split; [assumption|].
    assert (E1 : parseFloat (mkFixed 150000 3) = lit 150) by (vm_compute; reflexivity).
    assert (E2 : parseFloat (mkFixed 250000 3) = lit 250) by (vm_compute; reflexivity).
    rewrite <- E1, <- E2. split; apply parseFloat_mono; lia.
Qed.

(** C6. The starting energy is a value from 0.5 to 1.0 rounded to three
    decimals for the normal mode, and from 150.0 to 250.0 rounded to three
    decimals for the greater mode; it is the energy of the first record. *)
Theorem C6_initial_energy (w : World) (energyType : number) (st : State) :
  random_in_unit_interval w ->
  exists e0 st1,
    initialEnergy w energyType st = (Returned e0, st1) /\
    initial_energy_range energyType e0 /\
    forall fuel r rest st',
      prepare_series w fuel energyType st = (Returned (r :: rest), st') ->
      energy (data r) = parseFloat e0.
Proof.
  intros Hr. rewrite initialEnergy_eq. do 2 eexists.
  split; [reflexivity|]. split; [apply first_energy_range; assumption|].
  intros fuel r rest st' H.
  apply prepare_series_spec in H. destruct H as (n & _ & R).
  pose proof (series_records _ _ _ _ _ _ R) as E.
  destruct n as [|n]; [discriminate E|].
  rewrite series_S in E. injection E as -> _. cbn [data].
  pose proof (first_energy_bounded w energyType (randoms_drawn st) Hr) as Hk.
  rewrite first_energy_eta. apply sample_energy.
  unfold energy_bound. lia.
Qed.

Lemma C6_initial_energy_witness :
  exists e0 st1,
    initialEnergy demo_world (Int 1) (initial_state demo_world) = (Returned e0, st1) /\
    initial_energy_range (Int 1) e0 /\
    forall fuel r rest st',
      prepare_series demo_world fuel (Int 1) (initial_state demo_world)
        = (Returned (r :: rest), st') ->
      energy (data r) = parseFloat e0.
Proof.
  exact (C6_initial_energy demo_world (Int 1) (initial_state demo_world)
           demo_randoms_ok).
Defined.

(** ** The time string of the series *)

Lemma nth_day_time_of_day (tz : Z -> bool -> Z) (z : Z) (d : Z) (i : nat) :
  fixed_offset tz z ->
  TimeWithinDay (LocalTime tz (nth_day tz d i)) = TimeWithinDay (LocalTime tz d).
Proof.
  intros Hz. induction i as [|i IH]; [reflexivity|].
  rewrite nth_day_S, (next_day_time_of_day tz z Hz). exact IH.
Qed.

Lemma london_prepare_series :
  prepare_series london_world 100 (Int 1) (initial_state london_world) =
  (Returned london_records,
   snd (prepare_series london_world 100 (Int 1) (initial_state london_world))).
Proof. vm_compute. reflexivity. Qed.

(** C10, as stated, fails where the clocks change: in London, a run at
    01:30:15 on 10 May 2024 stamps the records up to 30 March with
    1:30:15 AM and those from 31 March, the day when 01:30 does not exist,
    with 2:30:15 AM. *)
Lemma C10_time_string_counterexample :
  prepare_series london_world 100 (Int 1) (initial_state london_world) =
    (Returned london_records,
     snd (prepare_series london_world 100 (Int 1) (initial_state london_world))) /\
  map time london_records =
    repeat "1:30:15 AM"%string 21 ++ repeat "2:30:15 AM"%string 40 /\
  ~ (forall r r', In r london_records -> In r' london_records -> time r = time r').
Proof.
  split; [exact london_prepare_series|].
  assert (E : map time london_records =
              repeat "1:30:15 AM"%string 21 ++ repeat "2:30:15 AM"%string 40)
    by (vm_compute; reflexivity).
  split; [exact E|].
  intros H.
  assert (H1 : In "1:30:15 AM"%string (map time london_records))
    by (rewrite E; apply in_or_app; left; left; reflexivity).
  assert (H2 : In "2:30:15 AM"%string (map time london_records))
    by (rewrite E; apply in_or_app; right; left; reflexivity).
  destruct (proj1 (in_map_iff time london_records "1:30:15 AM"%string) H1)
    as (r1 & E1 & I1).
  destruct (proj1 (in_map_iff time london_records "2:30:15 AM"%string) H2)
    as (r2 & E2 & I2).
  specialize (H r1 r2 I1 I2). rewrite E1, E2 in H. discriminate H.
Qed.

(** C10, amended. In a host time zone of fixed UTC offset, every record of
    a run carries the same time string: the local time of day of the clock
    reading from which the script computes the first date, in twelve-hour
    form with the hour from 1 to 12 (0 shown as 12), minutes and seconds on
    two digits and an AM or PM suffix. *)
Theorem C10_time_string (w : World) (z : Z) (fuel : nat) (energyType : number)
    (st st' : State) (recs : list record) :
  fixed_offset (LocalTZA w) z ->
  prepare_series w fuel energyType st = (Returned recs, st') ->
  let captured := clock w (S (clock_reads st)) in
  Forall (fun r => time r = formatTime (LocalTZA w) captured) recs /\
  twelve_hour_format (formatTime (LocalTZA w) captured)
    (getHours (LocalTZA w) captured) (getMinutes (LocalTZA w) captured)
    (getSeconds (LocalTZA w) captured).
Proof.
  intros Hz H captured. split; [|apply formatTime_shape].
  apply prepare_series_spec in H. destruct H as (n & _ & R).
  apply Forall_forall. intros r Hin.
  rewrite (series_records _ _ _ _ _ _ R) in Hin.
  apply series_In in Hin. destruct Hin as (i & _ & ->). cbn [time].
  apply formatTime_time_of_day.
  rewrite (nth_day_time_of_day _ z) by assumption.
  unfold start_date. apply (two_months_before_time_of_day _ z Hz).
Qed.

Lemma demo_fixed_offset : fixed_offset (LocalTZA demo_world) 19800000.
Proof. intros t b. reflexivity. Defined.

Lemma C10_time_string_witness :
  Forall (fun r => time r = formatTime tz_india 1714372245123%Z) demo_records /\
  twelve_hour_format (formatTime tz_india 1714372245123%Z)
    (getHours tz_india 1714372245123%Z) (getMinutes tz_india 1714372245123%Z)
    (getSeconds tz_india 1714372245123%Z).
Proof.
  exact (C10_time_string demo_world 19800000 100 (Int 1)
           (initial_state demo_world) _ demo_records
           demo_fixed_offset demo_prepare_series).
Defined.

(** ** The storage phase *)

Lemma storage_calls_app (l1 l2 : list event) :
  storage_calls (l1 ++ l2) = storage_calls l1 ++ storage_calls l2.
Proof.
  induction l1 as [|e l1 IH]; [reflexivity|].
  destruct e; cbn [storage_calls List.app]; rewrite IH; reflexivity.
Qed.

Lemma console_lines_app (l1 l2 : list event) :
  console_lines (l1 ++ l2) = console_lines l1 ++ console_lines l2.
Proof.
  induction l1 as [|e l1 IH]; [reflexivity|].
  destruct e; cbn [console_lines List.app]; rewrite IH; reflexivity.
Qed.

Lemma generation_events_no_storage (l : list event) :
  forallb is_generation_event l = true -> storage_calls l = [].
Proof.
  induction l as [|e l IH]; [reflexivity|]. cbn [forallb].
  intros H. apply andb_true_iff in H. destruct H as [He Hl].
  destruct e as [m| |]; try discriminate He. cbn [storage_calls]. auto.
Qed.

Lemma generation_events_no_error (l : list event) (e : string) :
  forallb is_generation_event l = true ->
  ~ In (Console (ErrorPerformingAction e)) l.
Proof.
  intros H Hin. rewrite forallb_forall in H. apply H in Hin. discriminate Hin.
Qed.

(** A run that does not exhaust its fuel is a generation phase, which
    touches neither the storage nor the collection, followed by the guarded
    storage block. *)
Lemma run_phases (w : World) (fuel : nat) (out : Outcome unit) (st : State) :
  run w fuel = (out, st) -> out <> OutOfFuel ->
  exists dataToInsert st1 gen,
    trace st1 = gen ++ [Prompt AskEnergyType] /\
    forallb is_generation_event gen = true /\
    collection st1 = stored w /\
    try_catch_finally
      (storage_block w dataToInsert)
      (fun error => console_error (ErrorPerformingAction error))
      (mongoose_disconnect w ;;; console_log DisconnectedFromMongoDB)%monad st1
    = (out, st).
Proof.
  unfold run, runDataGeneration, askEnergyType.
  unfold bind at 1. unfold bind at 1, emit at 1, ret at 1.
  cbn [randoms_drawn clock_reads collection next_id trace initial_state].
  unfold generateDataForTwoMonths, bind at 1.
  destruct (prepare_series w fuel (parseInt (energyTypeAnswer w)) _)
    as [[recs|e|] st1] eqn:E; intros H Hout.
  - apply prepare_series_spec in E. destruct E as (n & _ & R).
    destruct (series_trace _ _ _ _ _ _ R) as (gen & Ht & Hg).
    pose proof (series_collection _ _ _ _ _ _ R) as Hc.
    cbn [trace collection] in Ht, Hc.
    exists recs, st1, gen. repeat split; assumption.
  - apply prepare_series_spec in E. contradiction.
  - injection H as <- _. contradiction.
Qed.

(* ================================================================= *)
(** * Part III: further properties of the script *)
(* ================================================================= *)

(** ** The calendar behind [getDate], [setDate] and [setMonth] *)

Local Open Scope Z_scope.

Lemma DaysInYear_cases (y : Z) : DaysInYear y = 365 \/ DaysInYear y = 366.
Proof.
  unfold DaysInYear.
  repeat match goal with
         | |- context [if ?b then _ else _] => destruct b
         end; auto.
Qed.

Lemma DayFromYear_succ (y : Z) : DayFromYear (y + 1) = DayFromYear y + DaysInYear y.
Proof.
  unfold DayFromYear, DaysInYear.
  destruct (Z.eqb_spec (y mod 4) 0) as [E4|E4]; cbn [negb].
  - destruct (Z.eqb_spec (y mod 100) 0) as [E100|E100]; cbn [negb].
    + destruct (Z.eqb_spec (y mod 400) 0) as [E400|E400]; cbn [negb];
        Z.to_euclidean_division_equations; lia.
    + Z.to_euclidean_division_equations; lia.
  - Z.to_euclidean_division_equations; lia.
Qed.

Lemma DayFromYear_mono (y y' : Z) : y <= y' -> DayFromYear y <= DayFromYear y'.
Proof. intros H. unfold DayFromYear. Z.to_euclidean_division_equations. lia. Qed.

Lemma DayFromYear_approx (y : Z) :
  146097 * (y - 1970) - 600 <= 400 * DayFromYear y <= 146097 * (y - 1970) + 600.
Proof. unfold DayFromYear. Z.to_euclidean_division_equations. lia. Qed.

Lemma YearFromDay_spec (d : Z) :
  DayFromYear (YearFromDay d) <= d < DayFromYear (YearFromDay d + 1).
Proof.
  unfold YearFromDay. cbv zeta.
  set (y0 := 1970 + d * 400 / 146097).
  assert (H0 : 146097 * (y0 - 1970) <= 400 * d < 146097 * (y0 - 1970) + 146097)
    by (unfold y0; Z.to_euclidean_division_equations; lia).
  pose proof (DayFromYear_approx y0) as A0.
  pose proof (DayFromYear_approx (y0 - 1)) as A1.
  pose proof (DayFromYear_approx (y0 + 1 + 1)) as A3.
  pose proof (DayFromYear_succ y0) as S0.
  pose proof (DayFromYear_succ (y0 + 1)) as S2.
  pose proof (DaysInYear_cases y0) as C0.
  pose proof (DaysInYear_cases (y0 + 1)) as C2.
  destruct (Z.ltb_spec d (DayFromYear y0)).
  - replace (y0 - 1 + 1) with y0 by lia. lia.
  - destruct (Z.leb_spec (DayFromYear (y0 + 1)) d); lia.
Qed.

Lemma Day_TimeWithinDay (t : Z) : t = Day t * msPerDay + TimeWithinDay t.
Proof.
  unfold Day, TimeWithinDay, msPerDay. rewrite Z.mul_comm. apply Z.div_mod. lia.
Qed.

Lemma Day_add_days (t k : Z) : Day (t + k * msPerDay) = Day t + k.
Proof. unfold Day, msPerDay. apply Z.div_add. lia. Qed.

Lemma InLeapYear_DaysInYear (t : Z) :
  DaysInYear (YearFromTime t) = 365 + InLeapYear t /\ 0 <= InLeapYear t <= 1.
Proof.
  unfold InLeapYear.
  destruct (DaysInYear_cases (YearFromTime t)) as [E|E]; rewrite E; cbn; lia.
Qed.

Lemma DayWithinYear_range (t : Z) : 0 <= DayWithinYear t < 365 + InLeapYear t.
Proof.
  unfold DayWithinYear. pose proof (YearFromDay_spec (Day t)) as [Hl Hu].
  fold (YearFromTime t) in Hl, Hu. rewrite DayFromYear_succ in Hu.
  destruct (InLeapYear_DaysInYear t) as [E _]. lia.
Qed.

Lemma MonthFromTime_range (t : Z) : 0 <= MonthFromTime t <= 11.
Proof.
  unfold MonthFromTime.
  repeat match goal with
         | |- context [if ?b then _ else _] => destruct b
         end; lia.
Qed.

(** X1. The calendar fields that the script reads are those of a real
    date: [YearFromTime t] is the largest year that starts at or before
    [t], the month lies in 0..11 and the date in 1..31. *)
Theorem calendar_fields (t : Z) :
  (DayFromYear (YearFromTime t) * msPerDay <= t /\
   forall y, DayFromYear y * msPerDay <= t -> y <= YearFromTime t) /\
  0 <= MonthFromTime t <= 11 /\
  1 <= DateFromTime t <= 31.
Proof.
  pose proof (YearFromDay_spec (Day t)) as [Hl Hu]. fold (YearFromTime t) in Hl, Hu.
  pose proof (Day_TimeWithinDay t) as Ht. pose proof (TimeWithinDay_range t) as Hr.
  split; [split|split].
  - unfold msPerDay in *. lia.
  - intros y Hy. destruct (Z_le_gt_dec y (YearFromTime t)) as [L|G]; [assumption|].
    exfalso. pose proof (DayFromYear_mono (YearFromTime t + 1) y ltac:(lia)).
    unfold msPerDay in *. lia.
  - apply MonthFromTime_range.
  - pose proof (DayWithinYear_range t) as Hd.
    destruct (InLeapYear_DaysInYear t) as [_ Hleap].
    unfold DateFromTime, MonthFromTime.
    repeat match goal with
           | |- context [if (?a <? ?b) then _ else _] => destruct (Z.ltb_spec a b)
           end; cbn [month_start]; lia.
Qed.

(** [MakeDay] undoes the decomposition of a day into year, month and date,
    and is linear in the date. *)
Lemma MakeDay_from_time (t k : Z) :
  MakeDay (YearFromTime t) (MonthFromTime t) (DateFromTime t + k) = Day t + k.
Proof.
  pose proof (MonthFromTime_range t) as Hm.
  unfold MakeDay. rewrite Z.div_small, Z.mod_small by lia. rewrite Z.add_0_r.
  unfold DateFromTime, DayWithinYear, InLeapYear. lia.
Qed.

(** Two months back is 59 to 62 days back. *)
Lemma MakeDay_two_months (y m dt : Z) :
  0 <= m <= 11 ->
  59 <= MakeDay y m dt - MakeDay y (m - 2) dt <= 62.
Proof.
  intros Hm. unfold MakeDay.
  rewrite (Z.div_small m 12), (Z.mod_small m 12) by lia. rewrite Z.add_0_r.
  assert (C : m = 0 \/ m = 1 \/ 2 <= m <= 11) by lia.
  destruct C as [->|[->|C]].
  - change ((0 - 2) / 12) with (-1). change ((0 - 2) mod 12) with 10.
    pose proof (DayFromYear_succ (y + -1)) as S.
    replace (y + -1 + 1) with y in S by lia.
    destruct (DaysInYear_cases (y + -1)) as [E|E]; rewrite E in *;
    destruct (DaysInYear_cases y) as [E'|E']; rewrite E' in *;
    cbn [Z.eqb Pos.eqb month_start]; lia.
  - change ((1 - 2) / 12) with (-1). change ((1 - 2) mod 12) with 11.
    pose proof (DayFromYear_succ (y + -1)) as S.
    replace (y + -1 + 1) with y in S by lia.
    destruct (DaysInYear_cases (y + -1)) as [E|E]; rewrite E in *;
    destruct (DaysInYear_cases y) as [E'|E']; rewrite E' in *;
    cbn [Z.eqb Pos.eqb month_start]; lia.
  - rewrite (Z.div_small (m - 2) 12), (Z.mod_small (m - 2) 12) by lia.
    rewrite Z.add_0_r.
    destruct (DaysInYear_cases y) as [E|E]; rewrite E; cbn [Z.eqb Pos.eqb];
    assert (D : m = 2 \/ m = 3 \/ m = 4 \/ m = 5 \/ m = 6 \/ m = 7 \/ m = 8
                \/ m = 9 \/ m = 10 \/ m = 11) by lia;
    repeat (destruct D as [->|D]); try subst m; cbn; lia.
Qed.

(** The calendar fields of an instant depend on its day only. *)
Lemma same_day_fields (a b : Z) :
  Day a = Day b ->
  YearFromTime a = YearFromTime b /\ MonthFromTime a = MonthFromTime b /\
  DateFromTime a = DateFromTime b.
Proof.
  intros E.
  assert (EY : YearFromTime a = YearFromTime b) by (unfold YearFromTime; rewrite E; reflexivity).
  assert (EL : InLeapYear a = InLeapYear b) by (unfold InLeapYear; rewrite EY; reflexivity).
  assert (EW : DayWithinYear a = DayWithinYear b)
    by (unfold DayWithinYear; rewrite E, EY; reflexivity).
  assert (EM : MonthFromTime a = MonthFromTime b)
    by (unfold MonthFromTime; rewrite EW, EL; reflexivity).
  repeat split; try assumption.
  unfold DateFromTime. rewrite EW, EL, EM. reflexivity.
Qed.

(** ** The dates of the series in a time zone of fixed offset *)

Transparent next_day two_months_before.

(** X2. In a time zone of fixed offset the update of the loop,
    [d.setDate(d.getDate() + 1)], moves the date forward by exactly one day
    of 86 400 000 ms, whatever the month or the year. *)
Theorem next_day_fixed (tz : Z -> bool -> Z) (z d : Z) :
  fixed_offset tz z -> next_day tz d = d + msPerDay.
Proof.
  intros Hz. unfold next_day, setDate, getDate.
  rewrite (UTC_fixed tz z Hz), (LocalTime_fixed tz z Hz).
  rewrite MakeDay_from_time. unfold MakeDate.
  pose proof (Day_TimeWithinDay (d + z)). lia.
Qed.

(** X3. In a time zone of fixed offset, [twoMonthsAgo.setMonth(today.getMonth() - 2)]
    moves the date object back by a whole number of days between 59 and 62,
    when [today] and the date object fall on the same local day; an
    overflowing date such as 30 February is carried into the next month. *)
Theorem two_months_before_fixed (tz : Z -> bool -> Z) (z today d : Z) :
  fixed_offset tz z ->
  Day (today + z) = Day (d + z) ->
  exists delta,
    59 <= delta <= 62 /\ two_months_before tz today d = d - delta * msPerDay.
Proof.
  intros Hz Hday. unfold two_months_before, setMonth, getMonth.
  rewrite (UTC_fixed tz z Hz), !(LocalTime_fixed tz z Hz).
  destruct (same_day_fields _ _ Hday) as (_ & EM & _). rewrite EM.
  pose proof (MakeDay_two_months (YearFromTime (d + z)) (MonthFromTime (d + z))
                (DateFromTime (d + z)) (MonthFromTime_range (d + z))) as H.
  pose proof (MakeDay_from_time (d + z) 0) as E. rewrite Z.add_0_r in E.
  rewrite E, Z.add_0_r in H.
  exists (Day (d + z)
          - MakeDay (YearFromTime (d + z)) (MonthFromTime (d + z) - 2)
              (DateFromTime (d + z))).
  split; [lia|]. unfold MakeDate.
  pose proof (Day_TimeWithinDay (d + z)). lia.
Qed.

Opaque next_day two_months_before.

Lemma tz_india_fixed : fixed_offset tz_india 19800000.
Proof. intros t b. reflexivity. Defined.

Lemma next_day_fixed_witness :
  next_day tz_india 1714372245123 = 1714372245123 + msPerDay.
Proof. exact (next_day_fixed tz_india 19800000 1714372245123 tz_india_fixed). Defined.

Lemma two_months_before_fixed_witness :
  exists delta,
    59 <= delta <= 62 /\
    two_months_before tz_india 1714372245123 1714372245124
    = 1714372245124 - delta * msPerDay.
Proof.
  refine (two_months_before_fixed tz_india 19800000 1714372245123 1714372245124
            tz_india_fixed _).
  vm_compute. reflexivity.
Defined.

Lemma nth_day_fixed (tz : Z -> bool -> Z) (z d : Z) (i : nat) :
  fixed_offset tz z -> nth_day tz d i = d + Z.of_nat i * msPerDay.
Proof.
  intros Hz. induction i as [|i IH].
  - change (nth_day tz d 0) with d. lia.
  - rewrite nth_day_S, IH, (next_day_fixed tz z) by assumption. lia.
Qed.

(** With a day of fuel for every day up to [today] and one to leave the
    loop, the loop returns. *)
Lemma daily_loop_returns (w : World) (z : Z) (et : number) (today : Z) (fuel : nat) :
  fixed_offset (LocalTZA w) z ->
  forall d e acc st,
    (0 < fuel)%nat -> today - d < (Z.of_nat fuel - 1) * msPerDay ->
    exists recs st', daily_loop w fuel et today d e acc st = (Returned recs, st').
Proof.
  intros Hz. induction fuel as [|fuel IH]; intros d e acc st Hf Hd; [lia|].
  rewrite daily_loop_S. destruct (Z.leb_spec d today) as [Hle|Hgt].
  - cbv zeta. rewrite (next_day_fixed _ z) by assumption.
    apply IH; unfold msPerDay in *; lia.
  - do 2 eexists. reflexivity.
Qed.

(** X4. In a time zone of fixed offset, with both clock readings on the
    same local day, the generation phase returns (64 turns of fuel are
    enough) a series of consecutive days that starts [delta] days before the
    second reading, 59 <= delta <= 62.  It ends on the day of the run,
    [delta + 1] records, when the two readings coincide; when the clock has
    advanced between them, it ends on the day before, [delta] records. *)
Theorem series_day_by_day (w : World) (z : Z) (fuel : nat) (energyType : number)
    (st : State) :
  fixed_offset (LocalTZA w) z ->
  let t1 := clock w (clock_reads st) in
  let t2 := clock w (S (clock_reads st)) in
  t1 <= t2 -> Day (t1 + z) = Day (t2 + z) -> (64 <= fuel)%nat ->
  exists delta recs st',
    59 <= delta <= 62 /\
    prepare_series w fuel energyType st = (Returned recs, st') /\
    Z.of_nat (List.length recs) = (if t1 =? t2 then delta + 1 else delta) /\
    forall i r,
      nth_error recs i = Some r ->
      date r = split_T_0 (toISOString (t2 + (Z.of_nat i - delta) * msPerDay)) /\
      Day (t2 + (Z.of_nat i - delta) * msPerDay) = Day t2 - delta + Z.of_nat i.
Proof.
  intros Hz t1 t2 Hle Hday Hfuel.
  destruct (two_months_before_fixed _ z t1 t2 Hz Hday) as (delta & Hdelta & Estart).
  change (start_date w (clock_reads st) = t2 - delta * msPerDay) in Estart.
  assert (Hnear : t2 - t1 < msPerDay).
  { pose proof (Day_TimeWithinDay (t1 + z)) as E1.
    pose proof (Day_TimeWithinDay (t2 + z)) as E2.
    pose proof (TimeWithinDay_range (t1 + z)). pose proof (TimeWithinDay_range (t2 + z)).
    rewrite Hday in E1. lia. }
  destruct (daily_loop_returns w z energyType (today_date w (clock_reads st)) fuel Hz
              (start_date w (clock_reads st))
              (first_energy w energyType (randoms_drawn st)) []
              (mkState (S (randoms_drawn st)) (2 + clock_reads st) (collection st)
                 (next_id st)
                 (Console (GeneratingDataFromTo
                    (split_T_0 (toISOString (start_date w (clock_reads st))))
                    (split_T_0 (toISOString (today_date w (clock_reads st)))))
                  :: trace st)))
    as (recs & st' & Eloop).
  { lia. }
  { rewrite Estart. unfold today_date. fold t1. unfold msPerDay in *. lia. }
  exists delta, recs, st'. split; [assumption|].
  split; [rewrite prepare_series_eq; exact Eloop|].
  apply daily_loop_spec in Eloop. destruct Eloop as (n & _ & R).
  pose proof (loop_records _ _ _ _ _ _ _ _ _ _ R) as Erecs.
  pose proof (loop_days_kept _ _ _ _ _ _ _ _ _ _ R) as Hkept.
  pose proof (loop_day_left _ _ _ _ _ _ _ _ _ _ R) as Hleft.
  cbn [List.app randoms_drawn clock_reads] in Erecs.
  rewrite (nth_day_fixed _ z) in Hleft by assumption.
  unfold today_date in Hkept, Hleft. fold t1 in Hkept, Hleft.
  rewrite Estart in Hleft.
  assert (Hn : Z.of_nat n = if t1 =? t2 then delta + 1 else delta).
  { assert (Hlast : (0 < n)%nat -> t2 - delta * msPerDay + (Z.of_nat n - 1) * msPerDay <= t1).
    { intros Hpos. specialize (Hkept (n - 1)%nat ltac:(lia)).
      rewrite (nth_day_fixed _ z), Estart in Hkept by assumption.
      replace (Z.of_nat (n - 1)) with (Z.of_nat n - 1) in Hkept by lia. exact Hkept. }
    destruct (Z.eqb_spec t1 t2) as [E|N].
    - destruct n as [|n]; [unfold msPerDay in *; lia|].
      specialize (Hlast ltac:(lia)). unfold msPerDay in *. lia.
    - destruct n as [|n]; [unfold msPerDay in *; lia|].
      specialize (Hlast ltac:(lia)). unfold msPerDay in *. lia. }
  split.
  - rewrite Erecs, series_length. exact Hn.
  - intros i r Hi. rewrite Erecs in Hi. apply series_nth_inv in Hi.
    destruct Hi as [_ ->]. cbn [date].
    rewrite (nth_day_fixed _ z), Estart by assumption.
    split.
    + do 2 f_equal. lia.
    + rewrite Day_add_days. lia.
Qed.

Lemma series_day_by_day_witness :
  exists delta recs st',
    59 <= delta <= 62 /\
    prepare_series demo_world 100 (Int 1) (initial_state demo_world)
      = (Returned recs, st') /\
    Z.of_nat (List.length recs)
      = (if 1714372245123 =? 1714372245123 then delta + 1 else delta) /\
    forall i r,
      nth_error recs i = Some r ->
      date r = split_T_0 (toISOString
                 (1714372245123 + (Z.of_nat i - delta) * msPerDay)) /\
      Day (1714372245123 + (Z.of_nat i - delta) * msPerDay)
        = Day 1714372245123 - delta + Z.of_nat i.
Proof.
  refine (series_day_by_day demo_world 19800000 100 (Int 1)
            (initial_state demo_world) demo_fixed_offset _ _ _).
  - vm_compute. intros H. discriminate H.
  - vm_compute. reflexivity.
  - lia.
Defined.

Local Close Scope Z_scope.

(** ** The date string *)

Transparent toISOString split_T_0.

Lemma string_append_empty (s : string) : (s ++ "")%string = s.
Proof.
  induction s as [|c s IH]; [reflexivity|].
  cbn [String.append]. rewrite IH. reflexivity.
Qed.

Lemma split_T_0_app (s s' : string) :
  split_T_0 s = s -> split_T_0 (s ++ s') = (s ++ split_T_0 s')%string.
Proof.
  induction s as [|c s IH]; intros H; [reflexivity|].
  cbn [split_T_0 String.append] in *.
  destruct (Ascii.eqb c "T"); [discriminate H|].
  injection H as H. rewrite IH by assumption. reflexivity.
Qed.

Lemma split_T_0_keeps_app (s s' : string) :
  split_T_0 s = s -> split_T_0 s' = s' -> split_T_0 (s ++ s') = (s ++ s')%string.
Proof. intros H H'. rewrite split_T_0_app, H' by assumption. reflexivity. Qed.

Lemma split_T_0_digits (d : uint) :
  split_T_0 (NilEmpty.string_of_uint d) = NilEmpty.string_of_uint d.
Proof.
  induction d; cbn [NilEmpty.string_of_uint split_T_0 Ascii.eqb Bool.eqb];
    rewrite ?IHd; reflexivity.
Qed.

Lemma split_T_0_number (z : Z) : split_T_0 (Z_to_string z) = Z_to_string z.
Proof.
  unfold Z_to_string, NilZero.string_of_int, NilZero.string_of_uint.
  destruct (Z.to_int z) as [d|d]; destruct d;
    try reflexivity;
    try (apply split_T_0_digits);
    try (cbn [split_T_0 Ascii.eqb Bool.eqb]; f_equal; apply split_T_0_digits).
Qed.

Lemma split_T_0_zeros (n : nat) :
  split_T_0 (repeat_char "0" n) = repeat_char "0" n.
Proof.
  induction n as [|n IH]; [reflexivity|].
  cbn [repeat_char split_T_0 Ascii.eqb Bool.eqb]. rewrite IH. reflexivity.
Qed.

Lemma split_T_0_pad_number (n : nat) (z : Z) :
  split_T_0 (pad_number n z) = pad_number n z.
Proof.
  unfold pad_number, padStart.
  apply split_T_0_keeps_app; [apply split_T_0_zeros | apply split_T_0_number].
Qed.

Lemma split_T_0_iso_date (t : Z) : split_T_0 (iso_date t) = iso_date t.
Proof.
  unfold iso_date. apply split_T_0_keeps_app.
  - unfold iso_year.
    destruct ((0 <=? YearFromTime t) && (YearFromTime t <=? 9999))%Z.
    + apply split_T_0_pad_number.
    + apply split_T_0_keeps_app; [|apply split_T_0_pad_number].
      destruct (YearFromTime t <? 0)%Z; reflexivity.
  - apply split_T_0_keeps_app; [reflexivity|].
    apply split_T_0_keeps_app; [apply split_T_0_pad_number|].
    apply split_T_0_keeps_app; [reflexivity|apply split_T_0_pad_number].
Qed.

(** X5. The date string of a record, [d.toISOString().split('T')[0]], is
    the date part of the ISO form of [d]: the UTC year, month and date
    joined by hyphens, with nothing of the time of day; it depends on the
    UTC day of [d] only. *)
Theorem date_string_is_iso_date (t : Z) :
  split_T_0 (toISOString t) = iso_date t /\
  forall t', Day t' = Day t -> split_T_0 (toISOString t') = split_T_0 (toISOString t).
Proof.
  assert (E : forall u, split_T_0 (toISOString u) = iso_date u).
  { intros u. unfold toISOString.
    rewrite split_T_0_app by apply split_T_0_iso_date.
    cbn [String.append split_T_0 Ascii.eqb Bool.eqb].
    apply string_append_empty. }
  split; [apply E|].
  intros t' Hd. rewrite !E. unfold iso_date.
  destruct (same_day_fields _ _ Hd) as (-> & -> & ->). reflexivity.
Qed.

Opaque toISOString split_T_0.

(** ** The storage block, scenario by scenario *)

Lemma bind_returned {A B} (m : M A) (k : A -> M B) (st st' : State) (a : A) :
  m st = (Returned a, st') -> bind m k st = k a st'.
Proof. intros E. unfold bind. rewrite E. reflexivity. Qed.

Lemma assign_ids_length (n : nat) (rs : list record) :
  List.length (assign_ids n rs) = List.length rs.
Proof.
  revert n. induction rs as [|r rs IH]; intros n; [reflexivity|].
  cbn [assign_ids List.length]. rewrite IH. reflexivity.
Qed.

Lemma assign_ids_content (n : nat) (rs : list record) :
  map content (assign_ids n rs) = rs.
Proof.
  revert n. induction rs as [|r rs IH]; intros n; [reflexivity|].
  cbn [assign_ids map content]. rewrite IH. reflexivity.
Qed.

Lemma history_log_events (new : list event) (st1 st2 : State) :
  trace st2 = List.rev new ++ trace st1 -> history st2 = history st1 ++ new.
Proof.
  intros E. unfold history. rewrite E, List.rev_app_distr, List.rev_involutive.
  reflexivity.
Qed.

Lemma generateDataForTwoMonths_phases (w : World) (fuel : nat) (et : number)
    (st st1 : State) (recs : list record) :
  prepare_series w fuel et st = (Returned recs, st1) ->
  generateDataForTwoMonths w fuel et st =
  try_catch_finally
    (storage_block w recs)
    (fun error => console_error (ErrorPerformingAction error))
    (mongoose_disconnect w ;;; console_log DisconnectedFromMongoDB)%monad st1.
Proof.
  intros H. unfold generateDataForTwoMonths.
  rewrite (bind_returned _ _ _ _ _ H). reflexivity.
Qed.

Lemma prepare_series_frame (w : World) (fuel : nat) (et : number)
    (st st1 : State) (recs : list record) :
  prepare_series w fuel et st = (Returned recs, st1) ->
  collection st1 = collection st /\ next_id st1 = next_id st.
Proof.
  intros H. apply prepare_series_spec in H. destruct H as (n & _ & R).
  split; [exact (series_collection _ _ _ _ _ _ R) | exact (series_next_id _ _ _ _ _ _ R)].
Qed.

(** X6. Insert: when the server answers and the user types 1, the run
    appends the generated records to the collection, in order and after the
    documents already there, which it leaves alone, and reports their
    number; the events after the generation are exactly the connection, the
    prompt, the insertion and the release. *)
Theorem insert_stores_series (w : World) (fuel : nat) (energyType : number)
    (st st1 : State) (recs : list record) :
  prepare_series w fuel energyType st = (Returned recs, st1) ->
  (forall op, fault w op = None) ->
  parseInt (actionAnswer w) = Int 1 ->
  exists st2,
    generateDataForTwoMonths w fuel energyType st = (Returned tt, st2) /\
    collection st2
      = Some (existing (collection st) ++ assign_ids (next_id st) recs) /\
    map content (assign_ids (next_id st) recs) = recs /\
    history st2
      = history st1 ++ connection_events (collection st)
          ++ [Console (InsertingRecords (List.length recs)); Storage OpInsertMany;
              Console (InsertedRecords (List.length recs))]
          ++ release_events.
Proof.
  intros Hprep F A.
  destruct (prepare_series_frame _ _ _ _ _ _ Hprep) as [Ec En].
  rewrite (generateDataForTwoMonths_phases _ _ _ _ _ _ Hprep).
  rewrite <- Ec, <- En. clear Hprep Ec En.
  destruct st1 as [r c col nid tr].
  unfold try_catch_finally, storage_block, mongoose_connect, listCollections,
    askUserAction, insertMany, mongoose_disconnect, call.
  rewrite !F, A. cbn [collection next_id strict_eq Z.eqb Pos.eqb].
  destruct col as [old|];
    cbv beta iota zeta delta [bind ret emit console_log console_error
      get_collection get_next_id set_collection randoms_drawn clock_reads
      collection next_id trace Nat.eqb].
  - eexists. split; [reflexivity|]. cbn [collection existing].
    rewrite assign_ids_length.
    split; [reflexivity|]. split; [apply assign_ids_content|].
    apply history_log_events. reflexivity.
  - eexists. split; [reflexivity|]. cbn [collection existing].
    rewrite assign_ids_length.
    split; [reflexivity|]. split; [apply assign_ids_content|].
    apply history_log_events. reflexivity.
Qed.

Lemma demo_no_fault : forall op, fault demo_world op = None.
Proof. intros op. reflexivity. Defined.

Lemma insert_stores_series_witness :
  exists st2,
    generateDataForTwoMonths demo_world 100 (Int 1) (initial_state demo_world)
      = (Returned tt, st2) /\
    collection st2 = Some (existing None ++ assign_ids 0 demo_records) /\
    map content (assign_ids 0 demo_records) = demo_records /\
    history st2
      = history (snd (prepare_series demo_world 100 (Int 1)
                        (initial_state demo_world)))
          ++ connection_events None
          ++ [Console (InsertingRecords (List.length demo_records));
              Storage OpInsertMany;
              Console (InsertedRecords (List.length demo_records))]
          ++ release_events.
Proof.
  exact (insert_stores_series demo_world 100 (Int 1) (initial_state demo_world) _
           demo_records demo_prepare_series demo_no_fault eq_refl).
Defined.

Lemma id_in_own_ids (docs : list document) (d : document) :
  In d docs -> id_in (map _id docs) d = true.
Proof.
  intros H. unfold id_in. apply existsb_exists. exists (_id d).
  split; [apply in_map; assumption | apply Nat.eqb_refl].
Qed.

Lemma filter_all {A} (f : A -> bool) (l : list A) :
  (forall x, In x l -> f x = true) -> filter f l = l.
Proof.
  induction l as [|a l IH]; intros H; [reflexivity|].
  cbn [filter]. rewrite (H a (or_introl eq_refl)), IH; [reflexivity|].
  intros x Hx. apply H. right. assumption.
Qed.

Lemma filter_none {A} (f : A -> bool) (l : list A) :
  (forall x, In x l -> f x = true) -> filter (fun x => negb (f x)) l = [].
Proof.
  induction l as [|a l IH]; intros H; [reflexivity|].
  cbn [filter]. rewrite (H a (or_introl eq_refl)). cbn [negb]. apply IH.
  intros x Hx. apply H. right. assumption.
Qed.

(** X7. Delete: when the server answers and the user types 2, the run
    deletes every document that the collection holds, whoever inserted it,
    and reports their number; the records it has just generated are not
    stored. *)
Theorem delete_empties_collection (w : World) (fuel : nat) (energyType : number)
    (st st1 : State) (recs : list record) (docs : list document) :
  prepare_series w fuel energyType st = (Returned recs, st1) ->
  (forall op, fault w op = None) ->
  parseInt (actionAnswer w) = Int 2 ->
  collection st = Some docs -> docs <> [] ->
  exists st2,
    generateDataForTwoMonths w fuel energyType st = (Returned tt, st2) /\
    collection st2 = Some [] /\
    history st2
      = history st1 ++ connection_events (Some docs)
          ++ [Storage OpFind; Storage OpDeleteMany;
              Console (DeletedRecords (List.length docs))]
          ++ release_events.
Proof.
  intros Hprep F A Hdocs Hne.
  destruct (prepare_series_frame _ _ _ _ _ _ Hprep) as [Ec _].
  rewrite (generateDataForTwoMonths_phases _ _ _ _ _ _ Hprep).
  rewrite Hdocs in Ec. clear Hprep Hdocs.
  destruct st1 as [r c col nid tr]. cbn [collection] in Ec. subst col.
  pose proof (filter_all _ docs (id_in_own_ids docs)) as Eall.
  pose proof (filter_none _ docs (id_in_own_ids docs)) as Enone.
  unfold try_catch_finally, storage_block, mongoose_connect, listCollections,
    askUserAction, find_all, deleteMany, mongoose_disconnect, call.
  rewrite !F, A.
  destruct docs as [|d docs]; [contradiction|].
  cbv beta iota zeta delta [bind ret emit console_log console_error
    get_collection get_next_id set_collection randoms_drawn clock_reads
    collection next_id trace Nat.eqb strict_eq Z.eqb Pos.eqb
    Nat.ltb Nat.leb List.length].
  rewrite Eall, Enone.
  eexists. split; [reflexivity|]. cbn [collection].
  split; [reflexivity|]. apply history_log_events. reflexivity.
Qed.

Lemma delete_prepare_series :
  prepare_series delete_world 100 (Int 1) (initial_state delete_world) =
  (Returned delete_records,
   snd (prepare_series delete_world 100 (Int 1) (initial_state delete_world))).
Proof. vm_compute. reflexivity. Defined.

Lemma delete_no_fault : forall op, fault delete_world op = None.
Proof. intros op. reflexivity. Defined.

Lemma delete_empties_collection_witness :
  exists st2,
    generateDataForTwoMonths delete_world 100 (Int 1) (initial_state delete_world)
      = (Returned tt, st2) /\
    collection st2 = Some [] /\
    history st2
      = history (snd (prepare_series delete_world 100 (Int 1)
                        (initial_state delete_world)))
          ++ connection_events
               (Some [mkDocument 7 some_record; mkDocument 8 some_record])
          ++ [Storage OpFind; Storage OpDeleteMany;
              Console (DeletedRecords
                         (List.length [mkDocument 7 some_record;
                                       mkDocument 8 some_record]))]
          ++ release_events.
Proof.
  refine (delete_empties_collection delete_world 100 (Int 1)
            (initial_state delete_world) _ delete_records
            [mkDocument 7 some_record; mkDocument 8 some_record]
            delete_prepare_series delete_no_fault eq_refl eq_refl _).
  discriminate.
Defined.

(** X8. When the server cannot be reached, the error is reported, the
    connection is released and the run ends there: the user is never asked
    for an action, no other storage call is made and the generated records
    are dropped. *)
Theorem unreachable_server (w : World) (fuel : nat) (energyType : number)
    (st st1 : State) (recs : list record) (error : string) :
  prepare_series w fuel energyType st = (Returned recs, st1) ->
  fault w OpConnect = Some error ->
  fault w OpDisconnect = None ->
  exists st2,
    generateDataForTwoMonths w fuel energyType st = (Returned tt, st2) /\
    collection st2 = collection st /\
    history st2
      = history st1
          ++ [Console ConnectingToMongoDB; Storage OpConnect;
              Console (ErrorPerformingAction error)]
          ++ release_events.
Proof.
  intros Hprep F1 F6.
  destruct (prepare_series_frame _ _ _ _ _ _ Hprep) as [Ec _].
  rewrite (generateDataForTwoMonths_phases _ _ _ _ _ _ Hprep).
  rewrite <- Ec. clear Hprep Ec.
  destruct st1 as [r c col nid tr].
  unfold try_catch_finally, storage_block, mongoose_connect,
    mongoose_disconnect, call.
  cbv beta iota zeta delta [bind ret emit console_log console_error throw
    randoms_drawn clock_reads collection next_id trace].
  rewrite F1. cbv beta iota. rewrite F6.
  eexists. split; [reflexivity|]. cbn [collection].
  split; [reflexivity|]. apply history_log_events. reflexivity.
Qed.

Lemma offline_prepare_series :
  prepare_series offline_world 100 (Int 1) (initial_state offline_world) =
  (Returned offline_records,
   snd (prepare_series offline_world 100 (Int 1) (initial_state offline_world))).
Proof. vm_compute. reflexivity. Defined.

Lemma unreachable_server_witness :
  exists st2,
    generateDataForTwoMonths offline_world 100 (Int 1) (initial_state offline_world)
      = (Returned tt, st2) /\
    collection st2 = collection (initial_state offline_world) /\
    history st2
      = history (snd (prepare_series offline_world 100 (Int 1)
                        (initial_state offline_world)))
          ++ [Console ConnectingToMongoDB; Storage OpConnect;
              Console (ErrorPerformingAction "ECONNREFUSED")]
          ++ release_events.
Proof.
  exact (unreachable_server offline_world 100 (Int 1) (initial_state offline_world)
           _ offline_records "ECONNREFUSED"%string
           offline_prepare_series eq_refl eq_refl).
Defined.

(** The storage block never runs out of fuel: it has no loop. *)
Lemma storage_block_uses_no_fuel (w : World) (dataToInsert : list record) (st : State) :
  fst (storage_block w dataToInsert st) <> OutOfFuel.
Proof.
  destruct st as [r c col nid tr].
  unfold storage_block, mongoose_connect, listCollections, askUserAction,
    insertMany, find_all, deleteMany, call.
  cbv beta iota zeta delta [bind ret emit console_log console_error throw
    get_collection get_next_id set_collection randoms_drawn clock_reads
    collection next_id trace].
  repeat match goal with
         | |- context [match fault w ?op with _ => _ end] =>
             destruct (fault w op); cbv beta iota
         | |- context [if ?b then _ else _] => destruct b; cbv beta iota
         | |- context [match ?c with Some _ => _ | None => _ end] =>
             destruct c; cbv beta iota
         end; cbn [fst]; discriminate.
Qed.

(** X9. A failure of [mongoose.disconnect()] itself is not caught: whatever
    happened in the [try] block, the run ends with that error thrown out of
    [generateDataForTwoMonths], the call to disconnect is its last event and
    [Disconnected from MongoDB] is not printed after it. *)
Theorem release_failure_escapes (w : World) (fuel : nat) (energyType : number)
    (st st1 : State) (recs : list record) (error : string) :
  prepare_series w fuel energyType st = (Returned recs, st1) ->
  fault w OpDisconnect = Some error ->
  exists st2 earlier,
    generateDataForTwoMonths w fuel energyType st = (Thrown error, st2) /\
    history st2 = earlier ++ [Storage OpDisconnect].
Proof.
  intros Hprep F.
  rewrite (generateDataForTwoMonths_phases _ _ _ _ _ _ Hprep). clear Hprep.
  pose proof (storage_block_uses_no_fuel w recs st1) as Hfuel.
  unfold try_catch_finally.
  destruct (storage_block w recs st1) as [[u|e|] st'].
  - unfold mongoose_disconnect, call.
    cbv beta iota zeta delta [bind ret emit console_log throw].
    rewrite F. do 2 eexists. split; [reflexivity|].
    unfold history. cbn [trace List.rev]. reflexivity.
  - unfold mongoose_disconnect, call.
    cbv beta iota zeta delta [bind ret emit console_log console_error throw
      randoms_drawn clock_reads collection next_id trace].
    rewrite F. do 2 eexists. split; [reflexivity|].
    unfold history. cbn [trace List.rev]. reflexivity.
  - exfalso. apply Hfuel. reflexivity.
Qed.

Lemma stuck_prepare_series :
  prepare_series stuck_world 100 (Int 1) (initial_state stuck_world) =
  (Returned stuck_records,
   snd (prepare_series stuck_world 100 (Int 1) (initial_state stuck_world))).
Proof. vm_compute. reflexivity. Defined.

Lemma release_failure_escapes_witness :
  exists st2 earlier,
    generateDataForTwoMonths stuck_world 100 (Int 1) (initial_state stuck_world)
      = (Thrown "ECONNRESET"%string, st2) /\
    history st2 = earlier ++ [Storage OpDisconnect].
Proof.
  exact (release_failure_escapes stuck_world 100 (Int 1) (initial_state stuck_world)
           _ stuck_records "ECONNRESET"%string stuck_prepare_series eq_refl).
Defined.

(** ** The energy type *)

Transparent first_energy next_energy.

Lemma first_energy_other (w : World) (et : number) (i : nat) :
  strict_eq et 1 = false -> first_energy w et i = first_energy w (Int 2) i.
Proof. intros H. unfold first_energy. rewrite H. reflexivity. Qed.

Lemma next_energy_other (et : number) (e : fixed) :
  strict_eq et 1 = false -> next_energy et e = next_energy (Int 2) e.
Proof. intros H. unfold next_energy, energy_step. rewrite H. reflexivity. Qed.

Opaque first_energy next_energy.

Lemma daily_loop_other (w : World) (et : number) (today : Z) (fuel : nat) :
  strict_eq et 1 = false ->
  forall d e acc st,
    daily_loop w fuel et today d e acc st
    = daily_loop w fuel (Int 2) today d e acc st.
Proof.
  intros H. induction fuel as [|fuel IH]; intros d e acc st; [reflexivity|].
  rewrite !daily_loop_S. destruct (d <=? today)%Z; [|reflexivity].
  cbv zeta. rewrite (next_energy_other et e H). apply IH.
Qed.

(** X10. The energy type is only ever compared with 1: any other value,
    be it 2, 3 or the NaN of an answer that is not a number, runs the script
    exactly as energy type 2 does. *)
Theorem other_energy_types_are_greater (w : World) (fuel : nat)
    (energyType : number) (st : State) :
  strict_eq energyType 1 = false ->
  prepare_series w fuel energyType st = prepare_series w fuel (Int 2) st /\
  generateDataForTwoMonths w fuel energyType st
  = generateDataForTwoMonths w fuel (Int 2) st.
Proof.
  intros H.
  assert (E : prepare_series w fuel energyType st = prepare_series w fuel (Int 2) st).
  { rewrite !prepare_series_eq, (first_energy_other _ _ _ H).
    apply daily_loop_other. assumption. }
  split; [exact E|].
  unfold generateDataForTwoMonths, bind. rewrite E. reflexivity.
Qed.

Lemma other_energy_types_are_greater_witness :
  prepare_series demo_world 100 NaN (initial_state demo_world)
  = prepare_series demo_world 100 (Int 2) (initial_state demo_world) /\
  generateDataForTwoMonths demo_world 100 NaN (initial_state demo_world)
  = generateDataForTwoMonths demo_world 100 (Int 2) (initial_state demo_world).
Proof.
  exact (other_energy_types_are_greater demo_world 100 NaN
           (initial_state demo_world) eq_refl).
Defined.

(** ** The records one by one *)

(** X11. [generateRandomData] hands back, as the energy of the object,
    exactly the energy it was given whenever that energy was read from a
    string of three decimals: formatting it again changes nothing. *)
Theorem generateRandomData_keeps_energy (w : World) (k : Z) (st : State) :
  (0 <= k <= energy_bound)%Z ->
  exists d st',
    generateRandomData w (parseFloat (mkFixed k 3)) st = (Returned d, st') /\
    energy d = parseFloat (mkFixed k 3).
Proof.
  intros Hk. rewrite generateRandomData_eq. do 2 eexists.
  split; [reflexivity|]. apply sample_energy. assumption.
Qed.

Lemma generateRandomData_keeps_energy_witness :
  exists d st',
    generateRandomData demo_world (parseFloat (mkFixed 503 3))
      (initial_state demo_world) = (Returned d, st') /\
    energy d = parseFloat (mkFixed 503 3).
Proof.
  refine (generateRandomData_keeps_energy demo_world 503 (initial_state demo_world) _).
  unfold energy_bound. lia.
Defined.

(** X12. Every record is built from values of its own: record [i] uses
    the four random values that follow the [1 + 4 i] already drawn, never
    one that another record used, and is stamped with clock reading number
    [2 + i], the time of its creation and not its date.  A series of [n]
    records draws [1 + 4 n] random values and reads the clock [2 + n]
    times. *)
Theorem records_use_fresh_values (w : World) (fuel : nat) (energyType : number)
    (st st' : State) (recs : list record) :
  prepare_series w fuel energyType st = (Returned recs, st') ->
  randoms_drawn st' = (1 + 4 * List.length recs + randoms_drawn st)%nat /\
  clock_reads st' = (2 + List.length recs + clock_reads st)%nat /\
  forall i r,
    nth_error recs i = Some r ->
    timestamp r = clock w (2 + i + clock_reads st) /\
    exists energy,
      forall st_i,
        randoms_drawn st_i = (1 + 4 * i + randoms_drawn st)%nat ->
        fst (generateRandomData w energy st_i) = Returned (data r).
Proof.
  intros H. rewrite prepare_series_eq in H.
  apply daily_loop_spec in H. destruct H as (n & _ & R).
  pose proof (loop_records _ _ _ _ _ _ _ _ _ _ R) as E.
  pose proof (loop_randoms _ _ _ _ _ _ _ _ _ _ R) as Er.
  pose proof (loop_clock _ _ _ _ _ _ _ _ _ _ R) as Ec.
  cbn [List.app randoms_drawn clock_reads] in E, Er, Ec.
  rewrite E, series_length. repeat split; try lia.
  - apply series_nth_inv in H. destruct H as [_ ->]. cbn [timestamp].
    f_equal. lia.
  - apply series_nth_inv in H. destruct H as [_ ->]. cbn [data].
    exists (parseFloat
              (nth_energy energyType
                 (first_energy w energyType (randoms_drawn st)) i)).
    intros st_i Hi. rewrite generateRandomData_eq. cbn [fst]. rewrite Hi.
    replace (4 * i + S (randoms_drawn st))%nat
      with (1 + 4 * i + randoms_drawn st)%nat by lia.
    reflexivity.
Qed.

Lemma records_use_fresh_values_witness :
  randoms_drawn (snd (prepare_series demo_world 100 (Int 1)
                        (initial_state demo_world)))
    = (1 + 4 * List.length demo_records
       + randoms_drawn (initial_state demo_world))%nat /\
  clock_reads (snd (prepare_series demo_world 100 (Int 1)
                      (initial_state demo_world)))
    = (2 + List.length demo_records + clock_reads (initial_state demo_world))%nat /\
  forall i r,
    nth_error demo_records i = Some r ->
    timestamp r = clock demo_world (2 + i + clock_reads (initial_state demo_world)) /\
    exists energy,
      forall st_i,
        randoms_drawn st_i
          = (1 + 4 * i + randoms_drawn (initial_state demo_world))%nat ->
        fst (generateRandomData demo_world energy st_i) = Returned (data r).
Proof.
  exact (records_use_fresh_values demo_world 100 (Int 1) (initial_state demo_world)
           _ demo_records demo_prepare_series).
Defined.

(** ** The power *)

Lemma fmul_nonneg (a b : Q) : 0 <= a -> 0 <= b -> 0 <= fmul a b.
Proof. intros Ha Hb. unfold fmul. apply fl_nonneg. nra. Qed.

Lemma fmul_mono (a a' b b' : Q) :
  0 <= a -> a <= a' -> 0 <= b -> b <= b' -> fmul a b <= fmul a' b'.
Proof. intros Ha Haa Hb Hbb. unfold fmul. apply fl_mono; nra. Qed.

(** X13. The power of every generated record lies between 1.80 and
    220.50, the rounded products of the least and of the greatest voltage,
    current and power factor. *)
Theorem power_in_range (w : World) :
  random_in_unit_interval w ->
  forall fuel energyType st recs st',
    prepare_series w fuel energyType st = (Returned recs, st') ->
    Forall (fun r => decimal_between (power (data r)) 180 22050 2) recs.
Proof.
  intros Hr fuel et st recs st' H.
  apply prepare_series_spec in H. destruct H as (n & _ & R).
  apply Forall_forall. intros r Hin.
  rewrite (series_records _ _ _ _ _ _ R) in Hin.
  apply series_In in Hin. destruct Hin as (i & _ & ->). cbn [data].
  set (e := parseFloat (nth_energy et (first_energy w et (randoms_drawn st)) i)).
  set (j := (4 * i + S (randoms_drawn st))%nat).
  pose proof (sample_in_range w Hr e j) as Rg.
  pose proof (power_computed _ (sample_power w e j Hr)) as Ep.
  destruct (voltage_range _ Rg) as [V0 V1], (current_range _ Rg) as [C0 C1],
           (pf_range _ Rg) as [P0 P1].
  set (d := sample w e j) in *. clearbody d. rewrite Ep.
  assert (L1 : 0 <= lit 225) by closed_Qle.
  assert (L3 : 0 <= lit (1 # 100)) by closed_Qle.
  assert (L5 : 0 <= lit (8 # 10)) by closed_Qle.
  assert (E1 : digits (toFixed (fmul (fmul (lit 225) (lit (1 # 100))) (lit (8 # 10))) 2)
               = 180%Z) by (vm_compute; reflexivity).
  assert (E2 : digits (toFixed (fmul (fmul (lit 245) (lit 1)) (lit (9 # 10))) 2)
               = 22050%Z) by (vm_compute; reflexivity).
  exists (digits (toFixed (fmul (fmul (voltage d) (current d)) (pf d)) 2)).
  assert (V : 0 <= voltage d) by (exact (Qle_trans _ _ _ L1 V0)).
  assert (C : 0 <= current d) by (exact (Qle_trans _ _ _ L3 C0)).
  assert (P : 0 <= pf d) by (exact (Qle_trans _ _ _ L5 P0)).
  split; [|reflexivity]. rewrite <- E1, <- E2. split.
  - apply toFixed_mono.
    + exact (fmul_nonneg _ _ (fmul_nonneg _ _ L1 L3) L5).
    + exact (fmul_mono _ _ _ _ (fmul_nonneg _ _ L1 L3)
               (fmul_mono _ _ _ _ L1 V0 L3 C0) L5 P0).
  - apply toFixed_mono.
    + exact (fmul_nonneg _ _ (fmul_nonneg _ _ V C) P).
    + exact (fmul_mono _ _ _ _ (fmul_nonneg _ _ V C)
               (fmul_mono _ _ _ _ V V1 C C1) P P1).
Qed.

Lemma power_in_range_witness :
  Forall (fun r => decimal_between (power (data r)) 180 22050 2) demo_records.
Proof.
  exact (power_in_range demo_world demo_randoms_ok 100%nat (Int 1)
           (initial_state demo_world) demo_records _ demo_prepare_series).
Defined.

(** ** The prompts *)

Lemma prompts_app (l1 l2 : list event) :
  prompts (l1 ++ l2) = prompts l1 ++ prompts l2.
Proof.
  induction l1 as [|e l1 IH]; [reflexivity|].
  destruct e; cbn [prompts List.app]; rewrite IH; reflexivity.
Qed.

Lemma prompts_rev (l : list event) : prompts (List.rev l) = List.rev (prompts l).
Proof.
  induction l as [|e l IH]; [reflexivity|].
  cbn [List.rev]. rewrite prompts_app, IH.
  destruct e; cbn [prompts List.rev List.app]; rewrite ?app_nil_r; reflexivity.
Qed.

Lemma generation_events_no_prompt (l : list event) :
  forallb is_generation_event l = true -> prompts l = [].
Proof.
  induction l as [|e l IH]; [reflexivity|]. cbn [forallb].
  intros H. apply andb_true_iff in H. destruct H as [He Hl].
  destruct e as [m| |]; try discriminate He. cbn [prompts]. auto.
Qed.

(** The guarded storage block asks for the action once when the server
    answers the connection and the listing, and not at all otherwise. *)
Lemma storage_block_prompts (w : World) (dataToInsert : list record) (st : State) :
  prompts (trace (snd (try_catch_finally
      (storage_block w dataToInsert)
      (fun error => console_error (ErrorPerformingAction error))
      (mongoose_disconnect w ;;; console_log DisconnectedFromMongoDB)%monad st)))
  = (if connects w then [AskAction] else []) ++ prompts (trace st).
Proof.
  destruct st as [r c col nid tr].
  unfold connects, try_catch_finally, storage_block, mongoose_connect,
    listCollections, askUserAction, insertMany, find_all, deleteMany,
    mongoose_disconnect, call.
  cbv beta iota zeta delta [bind ret emit console_log console_error throw
    get_collection get_next_id set_collection randoms_drawn clock_reads
    collection next_id trace].
  repeat match goal with
         | |- context [match fault w ?op with _ => _ end] =>
             destruct (fault w op); cbv beta iota
         | |- context [if ?b then _ else _] => destruct b; cbv beta iota
         | |- context [match ?c with Some _ => _ | None => _ end] =>
             destruct c; cbv beta iota
         end; reflexivity.
Qed.

(** X14. A run asks for the energy type first, whatever happens later,
    and for the action only once the server has answered the connection and
    the listing of the collections; no question is asked twice, so an
    answer that is not understood is never asked for again. *)
Theorem questions_asked (w : World) (fuel : nat) (out : Outcome unit) (st : State) :
  run w fuel = (out, st) -> out <> OutOfFuel ->
  prompts (history st)
  = AskEnergyType :: (if connects w then [AskAction] else []).
Proof.
  intros H Hout.
  destruct (run_phases w fuel out st H Hout) as (recs & st1 & gen & Ht & Hg & _ & E).
  pose proof (storage_block_prompts w recs st1) as P.
  rewrite E in P. cbn [snd] in P.
  unfold history. rewrite prompts_rev, P, Ht, prompts_app.
  rewrite (generation_events_no_prompt gen Hg).
  cbn [prompts List.app]. destruct (connects w); reflexivity.
Qed.

Lemma questions_asked_witness :
  prompts (history (snd (run demo_world 100)))
  = AskEnergyType :: (if connects demo_world then [AskAction] else []).
Proof.
  refine (questions_asked demo_world 100 (fst (run demo_world 100)) _ _ _).
  - apply surjective_pairing.
  - vm_compute. discriminate.
Defined.

Lemma skip_white_space_app (blanks s : string) :
  skip_white_space blanks = EmptyString ->
  skip_white_space (blanks ++ s) = skip_white_space s.
Proof.
  induction blanks as [|c blanks IH]; [reflexivity|].
  cbn [skip_white_space String.append].
  destruct (is_white_space c); [exact IH | discriminate].
Qed.

Lemma parse_digits_stops (rest : string) (k : Z) :
  parse_digits 10 rest None = None -> parse_digits 10 rest (Some k) = Some k.
Proof.
  destruct rest as [|c rest]; [reflexivity|]. cbn [parse_digits].
  destruct (digit_value c) as [v|]; [|reflexivity].
  destruct (v <? 10)%Z; [|reflexivity].
  intros H. exfalso. revert H. generalize v. clear.
  induction rest as [|c rest IH]; intros v; cbn [parse_digits]; [discriminate|].
  destruct (digit_value c) as [v'|]; [|discriminate].
  destruct (v' <? 10)%Z; [apply IH | discriminate].
Qed.

(** [parseInt] reads a single decimal digit from 1 to 9 that comes after
    blanks and before anything but a digit. *)
Lemma parseInt_one_digit (blanks rest : string) (c : ascii) (k : Z) :
  skip_white_space blanks = EmptyString ->
  digit_value c = Some k -> (1 <= k <= 9)%Z ->
  parse_digits 10 rest None = None ->
  parseInt (blanks ++ String c rest) = Int k.
Proof.
  intros Hb Hc Hk Hr. unfold parseInt. rewrite (skip_white_space_app _ _ Hb).
  pose proof (parse_digits_stops rest k Hr) as Hs.
  destruct c as [[|] [|] [|] [|] [|] [|] [|] [|]];
    vm_compute in Hc; try discriminate Hc; injection Hc as <-; try lia;
    simpl; rewrite Hs; reflexivity.
Qed.

(** X15. Both prompts read their answer with [parseInt], which is
    lenient: blanks before the digit and any text after it that does not
    start with a digit are dropped, so that an answer such as [  2abc] or
    [1.9] is taken as the choice 2, or 1. *)
Theorem prompts_read_leniently (w : World) (blanks rest : string) (c : ascii)
    (k : Z) (st : State) :
  skip_white_space blanks = EmptyString ->
  digit_value c = Some k -> (1 <= k <= 9)%Z ->
  parse_digits 10 rest None = None ->
  (energyTypeAnswer w = (blanks ++ String c rest)%string ->
   fst (askEnergyType w st) = Returned (Int k)) /\
  (actionAnswer w = (blanks ++ String c rest)%string ->
   fst (askUserAction w st) = Returned (Int k)).
Proof.
  intros Hb Hc Hk Hr.
  pose proof (parseInt_one_digit blanks rest c k Hb Hc Hk Hr) as P.
  split; intros E; unfold askEnergyType, askUserAction;
    cbv beta iota zeta delta [bind ret emit]; cbn [fst]; rewrite E, P; reflexivity.
Qed.

Lemma prompts_read_leniently_witness :
  fst (askEnergyType sloppy_world (initial_state sloppy_world)) = Returned (Int 2) /\
  fst (askUserAction sloppy_world (initial_state sloppy_world)) = Returned (Int 2).
Proof.
  destruct (prompts_read_leniently sloppy_world "  "%string "abc"%string "2"%char 2
              (initial_state sloppy_world)) as [H1 H2].
  - reflexivity.
  - reflexivity.
  - lia.
  - reflexivity.
  - split; [apply H1 | apply H2]; reflexivity.
Defined.

(** ** The other branches of the storage block *)





(** X17. Delete with nothing to delete: when the collection is empty or
    does not exist, the run searches it once, prints [No records found to
    delete], makes no call to [deleteMany] and releases the connection; no
    error is raised. *)
Theorem nothing_to_delete (w : World) (fuel : nat) (energyType : number)
    (st st1 : State) (recs : list record) :
  prepare_series w fuel energyType st = (Returned recs, st1) ->
  (forall op, fault w op = None) ->
  parseInt (actionAnswer w) = Int 2 ->
  existing (collection st) = [] ->
  exists st2,
    generateDataForTwoMonths w fuel energyType st = (Returned tt, st2) /\
    collection st2 = collection st /\
    history st2
      = history st1 ++ connection_events (collection st)
          ++ [Storage OpFind; Console NoRecordsFound] ++ release_events.
Proof.
  intros Hprep F A Hnone.
  destruct (prepare_series_frame _ _ _ _ _ _ Hprep) as [Ec _].
  rewrite (generateDataForTwoMonths_phases _ _ _ _ _ _ Hprep).
  rewrite <- Ec in *. clear Hprep Ec.
  destruct st1 as [r c col nid tr]. cbn [collection] in *.
  unfold try_catch_finally, storage_block, mongoose_connect, listCollections,
    askUserAction, find_all, deleteMany, mongoose_disconnect, call.
  rewrite !F, A.
  destruct col as [old|]; cbn [existing] in Hnone; subst;
    cbv beta iota zeta delta [bind ret emit console_log console_error
      get_collection get_next_id set_collection randoms_drawn clock_reads
      collection next_id trace Nat.eqb strict_eq Z.eqb Pos.eqb
      Nat.ltb Nat.leb List.length];
    (eexists; split; [reflexivity|]; cbn [collection];
     split; [reflexivity|]; apply history_log_events; reflexivity).
Qed.

Lemma bare_prepare_series :
  prepare_series bare_world 100 (Int 1) (initial_state bare_world) =
  (Returned bare_records,
   snd (prepare_series bare_world 100 (Int 1) (initial_state bare_world))).
Proof. vm_compute. reflexivity. Defined.

Lemma bare_no_fault : forall op, fault bare_world op = None.
Proof. intros op. reflexivity. Defined.

Lemma nothing_to_delete_witness :
  exists st2,
    generateDataForTwoMonths bare_world 100 (Int 1) (initial_state bare_world)
      = (Returned tt, st2) /\
    collection st2 = collection (initial_state bare_world) /\
    history st2
      = history (snd (prepare_series bare_world 100 (Int 1)
                        (initial_state bare_world)))
          ++ connection_events (collection (initial_state bare_world))
          ++ [Storage OpFind; Console NoRecordsFound] ++ release_events.
Proof.
  refine (nothing_to_delete bare_world 100 (Int 1) (initial_state bare_world) _
            bare_records bare_prepare_series bare_no_fault _ _); reflexivity.
Defined.

(** ** Failures of the storage *)

Lemma storage_calls_rev (l : list event) :
  storage_calls (List.rev l) = List.rev (storage_calls l).
Proof.
  induction l as [|e l IH]; [reflexivity|].
  cbn [List.rev]. rewrite storage_calls_app, IH.
  destruct e; cbn [storage_calls List.rev List.app]; rewrite ?app_nil_r; reflexivity.
Qed.

Lemma count_calls_rev (op : storage_op) (l : list event) :
  count_calls op (List.rev l) = count_calls op l.
Proof.
  unfold count_calls. rewrite storage_calls_rev.
  induction (storage_calls l) as [|o os IH]; [reflexivity|].
  cbn [List.rev]. rewrite filter_app, length_app, IH.
  cbn [filter]. destruct (storage_op_eqb op o); cbn [List.length]; lia.
Qed.

(** What the guarded storage block does for every behaviour of the server
    and every answer of the user. *)
Lemma storage_block_guarded (w : World) (dataToInsert : list record) (st : State) :
  let result :=
    try_catch_finally
      (storage_block w dataToInsert)
      (fun error => console_error (ErrorPerformingAction error))
      (mongoose_disconnect w ;;; console_log DisconnectedFromMongoDB)%monad st in
  (forall op, (count_calls op (trace (snd result))
               <= 1 + count_calls op (trace st))%nat) /\
  count_calls OpDisconnect (trace (snd result))
    = S (count_calls OpDisconnect (trace st)) /\
  (fault w OpDisconnect = None ->
   fst result = Returned tt /\
   exists earlier,
     trace (snd result)
     = Console DisconnectedFromMongoDB :: Storage OpDisconnect :: earlier) /\
  (forall op error,
     op <> OpDisconnect -> fault w op = Some error ->
     In (Storage op) (trace (snd result)) -> ~ In (Storage op) (trace st) ->
     In (Console (ErrorPerformingAction error)) (trace (snd result))).
Proof.
  destruct st as [r c col nid tr].
  unfold try_catch_finally, storage_block, mongoose_connect,
    listCollections, askUserAction, insertMany, find_all, deleteMany,
    mongoose_disconnect, call, count_calls.
  cbv beta iota zeta delta [bind ret emit console_log console_error throw
    get_collection get_next_id set_collection randoms_drawn clock_reads
    collection next_id trace].
  destruct (fault w OpDisconnect) as [e6|];
  repeat match goal with
         | |- context [match fault w ?op with _ => _ end] =>
             destruct (fault w op) eqn:?; cbv beta iota
         | |- context [if ?b then _ else _] => destruct b; cbv beta iota
         | |- context [match ?c with Some _ => _ | None => _ end] =>
             destruct c; cbv beta iota
         end;
  cbn [fst snd trace storage_calls];
  (split; [intros op; destruct op; cbn [filter storage_op_eqb List.length]; lia|]);
  (split; [cbn [filter storage_op_eqb List.length]; reflexivity|]);
  (split; [intros H; first [discriminate H | split; [reflexivity|eexists; reflexivity]]|]);
  intros op error Hop Hf Hin Hnot; cbn [In] in Hin |- *;
  repeat match goal with
         | H : _ \/ _ |- _ => destruct H as [H|H]
         end;
  try contradiction; try discriminate;
  match goal with
  | H : Storage _ = Storage op |- _ => injection H as <-
  end;
  try congruence;
  match goal with
  | F : fault w ?o = Some ?s |- _ =>
      rewrite F in Hf; injection Hf as <-; tauto
  end.
Qed.

(** X18. Whatever the server does and whatever the user answers, every
    storage operation is attempted at most once in a run (no retries) and
    the connection is released exactly once.  An operation of the [try]
    block that was attempted and failed has its error reported.  When the
    release itself succeeds the run ends normally, every failure having
    been caught, and its last two events are the release and
    [Disconnected from MongoDB]. *)
Theorem one_attempt_then_release (w : World) (fuel : nat) (out : Outcome unit)
    (st : State) :
  run w fuel = (out, st) -> out <> OutOfFuel ->
  (forall op, (count_calls op (history st) <= 1)%nat) /\
  count_calls OpDisconnect (history st) = 1%nat /\
  (forall op error,
     op <> OpDisconnect -> fault w op = Some error ->
     In (Storage op) (history st) ->
     In (Console (ErrorPerformingAction error)) (history st)) /\
  (fault w OpDisconnect = None ->
   out = Returned tt /\
   exists earlier, history st = earlier ++ release_events).
Proof.
  intros H Hout.
  destruct (run_phases w fuel out st H Hout) as (recs & st1 & gen & Ht & Hg & _ & E).
  pose proof (storage_block_guarded w recs st1) as G. cbv zeta in G.
  rewrite E in G. cbn [fst snd] in G. destruct G as (G1 & G2 & G3 & G4).
  assert (Z0 : forall op, count_calls op (trace st1) = 0%nat).
  { intros op. unfold count_calls. rewrite Ht, storage_calls_app.
    rewrite (generation_events_no_storage gen Hg). reflexivity. }
  assert (N0 : forall op, ~ In (Storage op) (trace st1)).
  { intros op Hin. rewrite Ht in Hin. apply in_app_or in Hin.
    destruct Hin as [Hin|[Hin|[]]]; [|discriminate Hin].
    rewrite forallb_forall in Hg. apply Hg in Hin. discriminate Hin. }
  unfold history. split; [|split; [|split]].
  - intros op. rewrite count_calls_rev. specialize (G1 op). rewrite Z0 in G1. lia.
  - rewrite count_calls_rev, G2, Z0. reflexivity.
  - intros op error Hop Hf Hin. apply in_rev in Hin. apply -> in_rev.
    exact (G4 op error Hop Hf Hin (N0 op)).
  - intros F. destruct (G3 F) as (-> & earlier & Et). split; [reflexivity|].
    exists (List.rev earlier). rewrite Et. cbn [List.rev].
    rewrite <- app_assoc. reflexivity.
Qed.

Lemma one_attempt_then_release_witness :
  (forall op,
     (count_calls op (history (snd (run readonly_world 100))) <= 1)%nat) /\
  count_calls OpDisconnect (history (snd (run readonly_world 100))) = 1%nat /\
  (forall op error,
     op <> OpDisconnect -> fault readonly_world op = Some error ->
     In (Storage op) (history (snd (run readonly_world 100))) ->
     In (Console (ErrorPerformingAction error))
        (history (snd (run readonly_world 100)))) /\
  (fault readonly_world OpDisconnect = None ->
   fst (run readonly_world 100) = Returned tt /\
   exists earlier,
     history (snd (run readonly_world 100)) = earlier ++ release_events).
Proof.
  refine (one_attempt_then_release readonly_world 100
            (fst (run readonly_world 100)) _ _ _).
  - apply surjective_pairing.
  - vm_compute. discriminate.
Defined.

(** ** The console during the generation *)

Lemma daily_loop_lines (w : World) (et : number) (today : Z) (fuel : nat) :
  forall d e acc st recs st',
    daily_loop w fuel et today d e acc st = (Returned recs, st') ->
    exists added,
      recs = acc ++ added /\
      trace st' = List.rev (flat_map record_lines added) ++ trace st.
Proof.
  induction fuel as [|fuel IH]; intros d e acc st recs st' H.
  - discriminate H.
  - rewrite daily_loop_S in H. destruct (d <=? today)%Z.
    + cbv zeta in H. apply IH in H. destruct H as (added & -> & Et).
      cbn [trace] in Et.
      eexists (_ :: added). split; [rewrite <- List.app_assoc; reflexivity|].
      rewrite Et. cbn [flat_map record_lines data List.app List.rev].
      rewrite <- !List.app_assoc. reflexivity.
    + injection H as <- <-. exists []. split; [rewrite List.app_nil_r|]; reflexivity.
Qed.

(** X19. The console tells what is prepared: the generation phase prints
    the line announcing the two dates, then for every record of the series,
    in order, the data object and the record itself, and nothing else; no
    record is printed that is not handed to the storage block, and none is
    handed over unprinted. *)
Theorem console_tells_the_series (w : World) (fuel : nat) (energyType : number)
    (st st' : State) (recs : list record) :
  prepare_series w fuel energyType st = (Returned recs, st') ->
  history st'
  = history st
      ++ Console (GeneratingDataFromTo
                    (split_T_0 (toISOString (start_date w (clock_reads st))))
                    (split_T_0 (toISOString (today_date w (clock_reads st)))))
      :: flat_map record_lines recs.
Proof.
  intros H. rewrite prepare_series_eq in H.
  apply daily_loop_lines in H. destruct H as (added & -> & Et).
  cbn [trace List.app] in *. unfold history. rewrite Et.
  rewrite List.rev_app_distr, List.rev_involutive. cbn [List.rev].
  rewrite <- List.app_assoc. reflexivity.
Qed.

Lemma console_tells_the_series_witness :
  history (snd (prepare_series demo_world 100 (Int 1) (initial_state demo_world)))
  = history (initial_state demo_world)
      ++ Console (GeneratingDataFromTo
                    (split_T_0 (toISOString
                       (start_date demo_world
                          (clock_reads (initial_state demo_world)))))
                    (split_T_0 (toISOString
                       (today_date demo_world
                          (clock_reads (initial_state demo_world))))))
      :: flat_map record_lines demo_records.
Proof.
  exact (console_tells_the_series demo_world 100 (Int 1)
           (initial_state demo_world) _ demo_records demo_prepare_series).
Defined.
